(** * Draggable: the gesture-to-position pipeline of [src/Draggable.js]

  A shallow embedding of the drag component: the [clamp] helper, the bounds
  query [getBounds], the drag guard [shouldStartDrag], the gesture handlers
  ([onPanResponderGrant], [handleOnDrag], [onPanResponderRelease]), the
  reverse policy [reversePosition], the imperative handle [animateTo], the
  mount effect with its cleanup, the press handlers, the layout handler,
  the debug overlay [getDebugView], the item style [dragItemCss], the
  content [touchableContent] and the shape of the rendered tree.

  Conventions.
  - A finite JavaScript number is read as an integer ([Z]) and its [+] and
    [-] as exact, which they are on integers of binary64 below [2^53]; the
    rounding of doubles is followed only in [Binary64], which evaluates the
    clamp on doubles.  The bound props ([minX] ...) are JavaScript values
    that may be [undefined] or a non-finite number, because the source
    tests them with [Number.isFinite].
  - The React refs ([pan], [offsetFromStart], [childSize], [startBounds],
    [isDragging]) are the fields of one [State] record that every handler
    threads through.  The props are fixed for the life of the component.
  - The callbacks handed in by the user ([onDrag], [onRelease], ...) are
    observers: calling one appends an [Effect] to the [log] of the state.
  - A handler that would raise a [TypeError] returns [None]. *)

From Stdlib Require Import ZArith List Bool Lia String SpecFloat.
Import ListNotations.

Local Open Scope Z_scope.
Local Open Scope bool_scope.

(** ** JavaScript values used by the component *)

Inductive JsNumber : Type :=
| Finite (z : Z)
| PosInfinity
| NegInfinity
| NaN.

Inductive JsValue : Type :=
| Undefined
| Number (n : JsNumber).

(** [Number.isFinite(v)]: true for a number that is neither infinite nor NaN,
    false for everything else, [undefined] included. *)
Definition Number_isFinite (v : JsValue) : bool :=
  match v with
  | Number (Finite _) => true
  | _ => false
  end.

(** The numeric reading of a value; the source only does arithmetic on a
    bound inside the branch guarded by [Number_isFinite]. *)
Definition toZ (v : JsValue) : Z :=
  match v with
  | Number (Finite z) => z
  | _ => 0
  end.

(** ** Geometry *)

Module Position.
Record t : Type := mk { x : Z; y : Z }.
Definition add (p q : t) : t := mk (x p + x q) (y p + y q).
End Position.

Abbreviation Position := Position.t.

Definition origin : Position := Position.mk 0 0.

Record Rectangle : Type := mkRectangle {
  left : Z;
  top : Z;
  right : Z;
  bottom : Z
}.

Record GestureState : Type := mkGesture { dx : Z; dy : Z }.

(** [function clamp(number, min, max)], source lines 19-21. *)
Definition clamp (number min max : Z) : Z :=
  Z.max min (Z.min number max).

(** The rectangle [r] moved by the offset [d]. *)
Definition translate (r : Rectangle) (d : Position) : Rectangle :=
  {| left := left r + Position.x d;
     top := top r + Position.y d;
     right := right r + Position.x d;
     bottom := bottom r + Position.y d |}.

(** The bounds tracker as the specification words it:
    [currentRectangle(basePosition, accumulatedOffset, size)]. *)
Definition currentRectangle (basePosition accumulatedOffset size : Position)
  : Rectangle :=
  let l := Position.x basePosition + Position.x accumulatedOffset in
  let t := Position.y basePosition + Position.y accumulatedOffset in
  {| left := l; top := t;
     right := l + Position.x size; bottom := t + Position.y size |}.

(** ** The animated value

    [Animated.ValueXY] and [Animated.spring] belong to React Native, not to
    this repository; the component only calls them. *)

Module Animated.

(** Modelled from the spec: the configuration handed to [springTo]; the
    source passes [toValue] and, in [animateTo], the two rest thresholds and
    a completion callback. *)
Record SpringConfig : Type := mkSpring {
  toValue : option Position;
  restDisplacementThreshold : option Z;
  restSpeedThreshold : option Z;
  onSettled : bool
}.

(** Modelled from the spec: the Position Animator of section 4.4, a value
    in two parts (the delta [value] on top of the base [offset]), at most
    one subscribed listener, and the spring transition in flight. *)
Record ValueXY : Type := mkValueXY {
  value : Position;
  offset : Position;
  listening : bool;
  animation : option SpringConfig
}.

(** Modelled from the spec: a fresh value, at rest at the origin with no
    subscriber. *)
Definition create : ValueXY :=
  {| value := origin; offset := origin; listening := false;
     animation := None |}.

(** Modelled from the spec: the observable value is base plus delta. *)
Definition getValue (v : ValueXY) : Position :=
  Position.add (value v) (offset v).

(** Modelled from the spec: a subscriber observes every value change. *)
Definition notifications (v : ValueXY) : list Position :=
  if listening v then [getValue v] else [].

(** Modelled from the spec: a value change.  The two coordinates of a
    write land one after the other and each is observed; [anim] is the
    transition left in flight by the write. *)
Definition write (p : Position) (anim : option SpringConfig) (v : ValueXY)
  : ValueXY * list Position :=
  let v1 := {| value := Position.mk (Position.x p) (Position.y (value v));
               offset := offset v; listening := listening v;
               animation := anim |} in
  let v2 := {| value := Position.mk (Position.x p) (Position.y p);
               offset := offset v; listening := listening v;
               animation := anim |} in
  (v2, notifications v1 ++ notifications v2).

(** Modelled from the spec: [setInstant] / [setDelta], an immediate write
    that supersedes a transition in flight. *)
Definition setValue (p : Position) (v : ValueXY) : ValueXY * list Position :=
  write p None v.

(** Modelled from the spec: [setBase]; not a value change of its own. *)
Definition setOffset (p : Position) (v : ValueXY) : ValueXY :=
  {| value := value v; offset := p; listening := listening v;
     animation := animation v |}.

(** Modelled from the spec: [flatten] merges base and delta into the base
    and resets the delta to zero; the observable value is unchanged. *)
Definition flattenOffset (v : ValueXY) : ValueXY :=
  {| value := origin; offset := getValue v; listening := listening v;
     animation := animation v |}.

(** Modelled from the spec: [subscribe]. *)
Definition addListener (v : ValueXY) : ValueXY :=
  {| value := value v; offset := offset v; listening := true;
     animation := animation v |}.

(** Modelled from the spec: [springTo] starts a transition that replaces
    the one in flight; it does not change the value by itself.  An
    undefined target is the origin at rest (section 4.4); React Native
    itself raises on one, which [animateTo] follows. *)
Definition spring (cfg : SpringConfig) (v : ValueXY) : ValueXY :=
  {| value := value v; offset := offset v; listening := listening v;
     animation := Some cfg |}.

(** Modelled from the spec: a frame of the transition in flight writes an
    intermediate value, observed like any other change. *)
Definition frame (p : Position) (v : ValueXY) : ValueXY * list Position :=
  match animation v with
  | None => (v, [])
  | Some cfg => write p (Some cfg) v
  end.

(** Modelled from the spec: the transition reaches rest at its target; an
    undefined target stands for [{x:0, y:0}] (section 4.4). *)
Definition settle (v : ValueXY) : ValueXY * list Position :=
  match animation v with
  | None => (v, [])
  | Some cfg =>
      match toValue cfg with
      | Some target => write target None v
      | None => write origin None v
      end
  end.

End Animated.

(** ** The component *)

(** The platform event a callback receives; only its identity matters. *)
Definition Event : Type := nat.

(** The props the pipeline reads (source lines 24-53).  A callback prop
    that the source tests before calling it is a flag saying whether it is
    truthy; [onReverse] is the caller's function, which answers a position
    object or [undefined]. *)
Record Props : Type := mkProps {
  shouldReverse : bool;
  onReverse : option (unit -> option Position);
  disabled : bool;
  onDragRelease : bool;
  afterRender : bool;
  renderSize : Z;
  x : Z;
  y : Z;
  minX : JsValue;
  minY : JsValue;
  maxX : JsValue;
  maxY : JsValue
}.

(** What the component does to the outside: the callbacks it fires with
    their arguments, and the springs it starts. *)
Inductive Effect : Type :=
| AfterRender
| OnDrag (e : Event) (gs : GestureState)
    (start : option Rectangle) (current : Rectangle)
| OnDragRelease (e : Event) (gs : GestureState)
    (start : option Rectangle) (current : Rectangle)
| OnRelease (e : Event) (wasDragged : bool)
| OnPressIn (e : Event)
| OnPressOut (e : Event)
| OnShortPressRelease (e : Event)
| OnLongPress (e : Event)
| SpringStart (cfg : Animated.SpringConfig)
| AnimateToCallback.

(** The refs of source lines 55-64, and the log of effects so far. *)
Record State : Type := mkState {
  pan : Animated.ValueXY;
  offsetFromStart : Position;
  childSize : Position;
  startBounds : option Rectangle;
  isDragging : bool;
  log : list Effect
}.

Definition set_pan (v : Animated.ValueXY) (st : State) : State :=
  {| pan := v; offsetFromStart := offsetFromStart st;
     childSize := childSize st; startBounds := startBounds st;
     isDragging := isDragging st; log := log st |}.

Definition set_offsetFromStart (c : Position) (st : State) : State :=
  {| pan := pan st; offsetFromStart := c;
     childSize := childSize st; startBounds := startBounds st;
     isDragging := isDragging st; log := log st |}.

Definition set_childSize (sz : Position) (st : State) : State :=
  {| pan := pan st; offsetFromStart := offsetFromStart st;
     childSize := sz; startBounds := startBounds st;
     isDragging := isDragging st; log := log st |}.

Definition set_startBounds (r : option Rectangle) (st : State) : State :=
  {| pan := pan st; offsetFromStart := offsetFromStart st;
     childSize := childSize st; startBounds := r;
     isDragging := isDragging st; log := log st |}.

Definition set_isDragging (b : bool) (st : State) : State :=
  {| pan := pan st; offsetFromStart := offsetFromStart st;
     childSize := childSize st; startBounds := startBounds st;
     isDragging := b; log := log st |}.

Definition emit (eff : Effect) (st : State) : State :=
  {| pan := pan st; offsetFromStart := offsetFromStart st;
     childSize := childSize st; startBounds := startBounds st;
     isDragging := isDragging st; log := log st ++ [eff] |}.

(** The listener of source lines 192-194: [offsetFromStart.current = c]. *)
Definition panListener (c : Position) (st : State) : State :=
  set_offsetFromStart c st.

(** Store the animated value an operation returns and run the listener on
    every change it announced, in order. *)
Definition deliver (r : Animated.ValueXY * list Position) (st : State)
  : State :=
  fold_left (fun s c => panListener c s) (snd r) (set_pan (fst r) st).

(** [const far = 999999999], source line 146. *)
Definition far : Z := 999999999.

Section Component.

Variable props : Props.

(** The refs at the first render, source lines 56-64. *)
Definition initial : State :=
  {| pan := Animated.create;
     offsetFromStart := origin;
     childSize := Position.mk (renderSize props) (renderSize props);
     startBounds := None;
     isDragging := false;
     log := [] |}.

(** [getBounds], source lines 66-75. *)
Definition getBounds (st : State) : Rectangle :=
  let left := x props + Position.x (offsetFromStart st) in
  let top := y props + Position.y (offsetFromStart st) in
  {| left := left;
     top := top;
     right := left + Position.x (childSize st);
     bottom := top + Position.y (childSize st) |}.

(** [shouldStartDrag], source lines 77-82. *)
Definition shouldStartDrag (gs : GestureState) : bool :=
  negb (disabled props)
  && ((Z.abs (dx gs) >? 2) || (Z.abs (dy gs) >? 2)).

(** The [toValue] of [reversePosition], source lines 85-88:
    [newOffset || originalOffset]. *)
Definition reverseTarget : Position :=
  let originalOffset := origin in
  let newOffset :=
    match onReverse props with
    | Some f => f tt
    | None => Some originalOffset
    end in
  match newOffset with
  | Some p => p
  | None => originalOffset
  end.

(** [reversePosition], source lines 84-91. *)
Definition reversePosition (st : State) : State :=
  let cfg := {| Animated.toValue := Some reverseTarget;
                Animated.restDisplacementThreshold := None;
                Animated.restSpeedThreshold := None;
                Animated.onSettled := false |} in
  emit (SpringStart cfg) (set_pan (Animated.spring cfg (pan st)) st).

(** [animateTo], source lines 94-108: [toValue] is the argument as given.
    React Native's [Animated.spring] on a [ValueXY] reads [x] and [y] off
    [toValue]; with an undefined [offset] that read raises a TypeError
    before anything is started. *)
Definition animateTo (offset : option Position) (callback : bool)
  (st : State) : option State :=
  match offset with
  | None => None
  | Some _ =>
      let cfg := {| Animated.toValue := offset;
                    Animated.restDisplacementThreshold := Some 1;
                    Animated.restSpeedThreshold := Some 1;
                    Animated.onSettled := callback |} in
      Some (emit (SpringStart cfg) (set_pan (Animated.spring cfg (pan st)) st))
  end.

(** [onPanResponderRelease], source lines 110-128. *)
Definition onPanResponderRelease (e : Event) (gestureState : GestureState)
  (st : State) : State :=
  let st1 := set_isDragging false st in
  let st2 :=
    if negb (shouldReverse props)
    then set_pan (Animated.flattenOffset (pan st1)) st1
    else reversePosition st1 in
  if onDragRelease props
  then emit (OnRelease e true)
         (emit (OnDragRelease e gestureState (startBounds st2) (getBounds st2))
            st2)
  else st2.

(** [onPanResponderGrant], source lines 130-140. *)
Definition onPanResponderGrant (e : Event) (gestureState : GestureState)
  (st : State) : State :=
  let st1 := set_isDragging true (set_startBounds (Some (getBounds st)) st) in
  if negb (shouldReverse props)
  then
    let st2 :=
      set_pan (Animated.setOffset (offsetFromStart st1) (pan st1)) st1 in
    deliver (Animated.setValue (Position.mk 0 0) (pan st2)) st2
  else st1.

(** The clamped change of [handleOnDrag], source lines 144-156, against the
    rectangle [sb] held in [startBounds]. *)
Definition dragChange (sb : Rectangle) (gestureState : GestureState)
  : Position :=
  let changeX :=
    clamp (dx gestureState)
      (if Number_isFinite (minX props)
       then toZ (minX props) - left sb else - far)
      (if Number_isFinite (maxX props)
       then toZ (maxX props) - right sb else far) in
  let changeY :=
    clamp (dy gestureState)
      (if Number_isFinite (minY props)
       then toZ (minY props) - top sb else - far)
      (if Number_isFinite (maxY props)
       then toZ (maxY props) - bottom sb else far) in
  Position.mk changeX changeY.

(** [handleOnDrag], source lines 142-161.  Destructuring an undefined
    [startBounds.current] raises. *)
Definition handleOnDrag (e : Event) (gestureState : GestureState)
  (st : State) : option State :=
  match startBounds st with
  | None => None
  | Some sb =>
      let st1 :=
        deliver (Animated.setValue (dragChange sb gestureState) (pan st)) st in
      Some (emit (OnDrag e gestureState (startBounds st1) (getBounds st1)) st1)
  end.

(** The effect of source lines 184-201, run once after the first render. *)
Definition useEffect (st : State) : State :=
  let st1 := if afterRender props then emit AfterRender st else st in
  if negb (shouldReverse props)
  then set_pan (Animated.addListener (pan st1)) st1
  else reversePosition st1.

(** [handleOnLayout], source lines 263-266. *)
Definition handleOnLayout (width height : Z) (st : State) : State :=
  set_childSize (Position.mk width height) st.

(** [handlePressOut], source lines 268-276. *)
Definition handlePressOut (e : Event) (st : State) : State :=
  let st1 := emit (OnPressOut e) st in
  if negb (isDragging st1) then emit (OnRelease e false) st1 else st1.

(** The component after mounting. *)
Definition mounted : State := useEffect initial.

End Component.

(** ** The host: what reaches the component and when

    The pan responder, the touchable and the animation driver are the
    host's.  The responder asks [shouldStartDrag] on a move while no drag is
    granted and grants when the answer is yes; it hands moves and the
    release to the handlers only while the grant lasts, which [isDragging]
    mirrors.  The touchable reports press-in, press-out, press and long
    press.  A caller may use the [animateTo] handle at any time; when the
    call raises, the exception is the caller's and the component is as it
    was.  A spring in flight produces frames until it settles. *)

Inductive Input : Type :=
| Layout (width height : Z)
| MoveShouldSet (e : Event) (gs : GestureState)
| PanMove (e : Event) (gs : GestureState)
| PanRelease (e : Event) (gs : GestureState)
| PressIn (e : Event)
| PressOut (e : Event)
| Press (e : Event)
| LongPress (e : Event)
| CallAnimateTo (offset : option Position) (callback : bool)
| SpringFrame (p : Position)
| SpringSettle.

Section Host.

Variable props : Props.

(** The spring in flight reaches rest: the last write, then the completion
    callback of [animateTo] (source lines 103-107) when one was given.  The
    log follows that callback only here, at rest. *)
Definition springSettle (st : State) : State :=
  let st1 := deliver (Animated.settle (pan st)) st in
  match Animated.animation (pan st) with
  | Some cfg => if Animated.onSettled cfg then emit AnimateToCallback st1
                else st1
  | None => st1
  end.

Definition dispatch (i : Input) (st : State) : option State :=
  match i with
  | Layout width height => Some (handleOnLayout width height st)
  | MoveShouldSet e gs =>
      if isDragging st then Some st
      else if shouldStartDrag props gs
           then Some (onPanResponderGrant props e gs st)
           else Some st
  | PanMove e gs =>
      if isDragging st then handleOnDrag props e gs st else Some st
  | PanRelease e gs =>
      if isDragging st then Some (onPanResponderRelease props e gs st)
      else Some st
  | PressIn e => Some (emit (OnPressIn e) st)
  | PressOut e => Some (handlePressOut e st)
  | Press e => Some (emit (OnShortPressRelease e) st)
  | LongPress e => Some (emit (OnLongPress e) st)
  | CallAnimateTo offset callback =>
      Some (match animateTo offset callback st with
            | Some st' => st'
            | None => st
            end)
  | SpringFrame p => Some (deliver (Animated.frame p (pan st)) st)
  | SpringSettle => Some (springSettle st)
  end.

(** A sequence of inputs, stopping at the first handler that raises. *)
Fixpoint run (inputs : list Input) (st : State) : option State :=
  match inputs with
  | [] => Some st
  | i :: rest =>
      match dispatch i st with
      | Some st' => run rest st'
      | None => None
      end
  end.

End Host.

(** The targets of the springs started so far, oldest first. *)
Fixpoint springTargets (l : list Effect) : list (option Position) :=
  match l with
  | [] => []
  | SpringStart cfg :: rest => Animated.toValue cfg :: springTargets rest
  | _ :: rest => springTargets rest
  end.

(** Whether an effect is the drag-release callback. *)
Definition isDragRelease (eff : Effect) : bool :=
  match eff with
  | OnDragRelease _ _ _ _ => true
  | _ => false
  end.

(** A gesture state that does not cross the drag threshold. *)
Definition belowThreshold (gs : GestureState) : Prop :=
  Z.abs (dx gs) <= 2 /\ Z.abs (dy gs) <= 2.

(** An active session holds its start rectangle. *)
Definition sessionInv (st : State) : Prop :=
  isDragging st = true -> startBounds st <> None.

(** Reversal mode: nothing listens to the animated value and the mirror of
    the accumulated offset is at the origin. *)
Definition reverseInv (st : State) : Prop :=
  Animated.listening (pan st) = false /\ offsetFromStart st = origin.

(** Commit mode, in the middle of a drag granted at rectangle [sb] over the
    base [base], with the element measured at [sz]. *)
Definition draggingFrom (sb : Rectangle) (base sz : Position) (st : State)
  : Prop :=
  isDragging st = true
  /\ startBounds st = Some sb
  /\ Animated.offset (pan st) = base
  /\ Animated.listening (pan st) = true
  /\ childSize st = sz.

(** The rectangle of an element of size [sz] at the base position. *)
Definition baseRectangle (props : Props) (sz : Position) : Rectangle :=
  currentRectangle (Position.mk (x props) (y props)) origin sz.

(** The rectangles an effect reports to a callback. *)
Definition reported (eff : Effect) : list Rectangle :=
  match eff with
  | OnDrag _ _ start current
  | OnDragRelease _ _ start current =>
      match start with
      | Some r => [r; current]
      | None => [current]
      end
  | _ => []
  end.

(** A rectangle sits at the base position when its top left corner does. *)
Definition atBase (props : Props) (r : Rectangle) : Prop :=
  r = baseRectangle props (Position.mk (right r - left r) (bottom r - top r)).

(** What holds of every state in reversal mode: [reverseInv], and every
    rectangle held or reported so far sits at the base position. *)
Definition reverseModeInv (props : Props) (st : State) : Prop :=
  reverseInv st
  /\ (forall r, startBounds st = Some r -> atBase props r)
  /\ (forall eff r, In eff (log st) -> In r (reported eff) -> atBase props r).

(** A press and release that the touchable reports as a tap: press-in, the
    moves of the finger, press-out, press. *)
Definition tap (e : Event) (moves : list GestureState) : list Input :=
  PressIn e :: map (MoveShouldSet e) moves ++ [PressOut e; Press e].

(** A drag: the move that crosses the threshold, the moves that follow and
    the release. *)
Definition drag (e : Event) (gs0 : GestureState)
  (moves : list GestureState) (gsr : GestureState) : list Input :=
  MoveShouldSet e gs0 :: map (PanMove e) moves ++ [PanRelease e gsr].

(** ** The rest of the component: teardown, debug overlay, rendering *)

(** Modelled from the spec: [unsubscribe], the removal of every listener. *)
Definition removeAllListeners (v : Animated.ValueXY) : Animated.ValueXY :=
  {| Animated.value := Animated.value v;
     Animated.offset := Animated.offset v;
     Animated.listening := false;
     Animated.animation := Animated.animation v |}.

(** The cleanup the effect returns, source lines 198-200. *)
Definition cleanup (st : State) : State :=
  set_pan (removeAllListeners (pan st)) st.

(** Modelled from the spec: [pan.current.getLayout()], the style of the
    animated view (source lines 305 and 326); the live position that drives
    the visual transform is the observable value. *)
Definition getLayout (v : Animated.ValueXY) : Position :=
  Animated.getValue v.

(** Where the element is drawn: the animated view sits at [getLayout], the
    item inside it at [top: y, left: x] ([dragItemCss]), with the size the
    layout reported. *)
Definition visibleRectangle (props : Props) (st : State) : Rectangle :=
  currentRectangle (Position.mk (x props) (y props)) (getLayout (pan st))
    (childSize st).


(** Whether an effect is one of the two drag callbacks or the released
    notifier after a drag. *)
Definition isDragEffect (eff : Effect) : bool :=
  match eff with
  | OnDrag _ _ _ _ | OnDragRelease _ _ _ _ | OnRelease _ true => true
  | _ => false
  end.

(** JavaScript truthiness of a value that is undefined or a number:
    [undefined], [0] and [NaN] are falsy. *)
Definition truthy (v : JsValue) : bool :=
  match v with
  | Undefined => false
  | Number (Finite z) => negb (z =? 0)
  | Number NaN => false
  | Number PosInfinity => true
  | Number NegInfinity => true
  end.

(** [a || b]. *)
Definition jsOr (a b : JsValue) : JsValue :=
  if truthy a then a else b.

(** [a - b] for a finite [a]. *)
Definition jsSub (a : Z) (b : JsValue) : JsValue :=
  match b with
  | Number (Finite z) => Number (Finite (a - z))
  | Number PosInfinity => Number NegInfinity
  | Number NegInfinity => Number PosInfinity
  | Number NaN => Number NaN
  | Undefined => Number NaN
  end.

(** The style of the debug overlay, source lines 289-294: the four computed
    sides and the entries of [styles.debugView] (lines 402-407). *)
Module DebugStyle.
Record t : Type := mk {
  left : JsValue;
  right : JsValue;
  top : JsValue;
  bottom : JsValue;
  backgroundColor : string;
  position : string;
  borderColor : string;
  borderWidth : Z
}.
End DebugStyle.

(** [const far = 9999] of [getDebugView], source line 280. *)
Definition debugFar : Z := 9999.

(** [getDebugView], source lines 278-295, in a window [width] by [height];
    [None] is the [null] it returns when nothing is constrained. *)
Definition getDebugView (props : Props) (width height : Z)
  : option DebugStyle.t :=
  let constrained :=
    jsOr (jsOr (jsOr (minX props) (maxX props)) (minY props)) (maxY props) in
  if negb (truthy constrained) then None
  else
    let left := jsOr (minX props) (Number (Finite (- debugFar))) in
    let right := if truthy (maxX props) then jsSub width (maxX props)
                 else Number (Finite (- debugFar)) in
    let top := jsOr (minY props) (Number (Finite (- debugFar))) in
    let bottom := if truthy (maxY props) then jsSub height (maxY props)
                  else Number (Finite (- debugFar)) in
    Some {| DebugStyle.left := left;
            DebugStyle.right := right;
            DebugStyle.top := top;
            DebugStyle.bottom := bottom;
            DebugStyle.backgroundColor := "#ff000044"%string;
            DebugStyle.position := "absolute"%string;
            DebugStyle.borderColor := "#fced0ecc"%string;
            DebugStyle.borderWidth := 4 |}.

(** A rendered child element; only its identity matters. *)
Definition Element : Type := nat.

(** The props that only the rendering reads (source lines 24-53): a prop
    that may be left out is an [option]. *)
Record RenderProps : Type := mkRenderProps {
  renderText : string;
  isCircle : bool;
  imageSource : option Z;
  renderColor : option string;
  children : option Element;
  debug : bool;
  z : Z;
  dragHandle : bool
}.

(** Truthiness of an optional string and of an optional number. *)
Definition truthyString (s : option string) : bool :=
  match s with
  | Some EmptyString => false
  | Some _ => true
  | None => false
  end.

Definition truthyNumber (n : option Z) : bool :=
  match n with
  | Some v => negb (v =? 0)
  | None => false
  end.

(** The style of the dragged item, source lines 214-240; an entry that the
    source does not set is [None]. *)
Module ItemStyle.
Record t : Type := mk {
  top : Z;
  left : Z;
  elevation : Z;
  zIndex : Z;
  backgroundColor : option string;
  borderRadius : option Z;
  alignSelf : option string;
  justifyContent : option string;
  width : option Z;
  height : option Z
}.
End ItemStyle.

(** [dragItemCss], source lines 214-240. *)
Definition dragItemCss (props : Props) (rp : RenderProps) : ItemStyle.t :=
  let backgroundColor :=
    if truthyString (renderColor rp) then renderColor rp else None in
  let borderRadius :=
    if isCircle rp then Some (renderSize props) else None in
  match children rp with
  | Some _ =>
      {| ItemStyle.top := y props; ItemStyle.left := x props;
         ItemStyle.elevation := z rp; ItemStyle.zIndex := z rp;
         ItemStyle.backgroundColor := backgroundColor;
         ItemStyle.borderRadius := borderRadius;
         ItemStyle.alignSelf := Some "baseline"%string;
         ItemStyle.justifyContent := None;
         ItemStyle.width := None; ItemStyle.height := None |}
  | None =>
      {| ItemStyle.top := y props; ItemStyle.left := x props;
         ItemStyle.elevation := z rp; ItemStyle.zIndex := z rp;
         ItemStyle.backgroundColor := backgroundColor;
         ItemStyle.borderRadius := borderRadius;
         ItemStyle.alignSelf := None;
         ItemStyle.justifyContent := Some "center"%string;
         ItemStyle.width := Some (renderSize props);
         ItemStyle.height := Some (renderSize props) |}
  end.

(** What [touchableContent] answers, source lines 242-261. *)
Inductive Content : Type :=
| HandleChildren (c : Element)
| Children (c : Element)
| ImageContent (source size : Z)
| TextContent (text : string).

(** [touchableContent], source lines 242-261: [HandleChildren c] is
    [dragHandle.renderChildren(c, {panResponder})]. *)
Definition touchableContent (props : Props) (rp : RenderProps) : Content :=
  match children rp with
  | Some c => if dragHandle rp then HandleChildren c else Children c
  | None =>
      match imageSource rp with
      | Some src =>
          if truthyNumber (imageSource rp)
          then ImageContent src (renderSize props)
          else TextContent (renderText rp)
      | None => TextContent (renderText rp)
      end
  end.

(** The tree the component returns, source lines 297-340: the overlay
    ([debug && getDebugView()]), whether the pan handlers are spread on the
    animated view, whether the item is the touchable with the press
    handlers, the style and the content of the item. *)
Record Rendered : Type := mkRendered {
  overlay : option DebugStyle.t;
  panHandlersOnView : bool;
  touchable : bool;
  itemStyle : ItemStyle.t;
  content : Content
}.

Definition render (props : Props) (rp : RenderProps) (width height : Z)
  : Rendered :=
  let overlay := if debug rp then getDebugView props width height
                 else None in
  if dragHandle rp
  then {| overlay := overlay; panHandlersOnView := false;
          touchable := false; itemStyle := dragItemCss props rp;
          content := touchableContent props rp |}
  else {| overlay := overlay; panHandlersOnView := true;
          touchable := true; itemStyle := dragItemCss props rp;
          content := touchableContent props rp |}.

(** Whether the pan responder reaches the tree at all: spread on the
    animated view, or handed to the drag handle with the children. *)
Definition panResponderWired (r : Rendered) : bool :=
  panHandlersOnView r
  || match content r with
     | HandleChildren _ => true
     | _ => false
     end.

(** Commit mode: the listener is attached and the mirror holds what the
    animated value shows. *)
Definition commitInv (st : State) : Prop :=
  Animated.listening (pan st) = true
  /\ offsetFromStart st = Animated.getValue (pan st).

(** What the moves of a drag granted at [sb] report to [onDrag] in commit
    mode, one effect per move. *)
Definition dragReports (props : Props) (sb : Rectangle) (e : Event)
  (moves : list GestureState) : list Effect :=
  map (fun gs => OnDrag e gs (Some sb) (translate sb (dragChange props sb gs)))
    moves.

(** The clamped change of the last of [moves], the origin when there is
    none. *)
Definition lastChange (props : Props) (sb : Rectangle)
  (moves : list GestureState) : Position :=
  last (map (dragChange props sb) moves) origin.

(** Whether an effect reports the release of a drag. *)
Definition isReleaseReport (eff : Effect) : bool :=
  match eff with
  | OnDragRelease _ _ _ _ | OnRelease _ true => true
  | _ => false
  end.

(** ** The clamp in binary64

    The numbers of the source are binary64 doubles.  [Binary64] evaluates
    the X-axis change of [handleOnDrag] on them, with the rounding of [+]
    and [-], to show where the integer reading above stops being exact. *)

Module Binary64.

Definition double : Type := spec_float.

(** The double nearest to [m * 2^e]. *)
Definition make (m e : Z) : double := binary_normalize 53 1024 m e false.

Definition add (a b : double) : double := SFadd 53 1024 a b.

Definition sub (a b : double) : double := SFsub 53 1024 a b.

(** [Number.isFinite] on a double. *)
Definition isFinite (a : double) : bool :=
  match a with
  | S754_zero _ | S754_finite _ _ _ => true
  | S754_infinity _ | S754_nan => false
  end.

(** [Math.max(a, b)]: NaN when either is NaN, [+0] above [-0]. *)
Definition max (a b : double) : double :=
  match SFcompare a b with
  | None => S754_nan
  | Some Lt => b
  | Some Gt => a
  | Some Eq => match a with
               | S754_zero true => b
               | _ => a
               end
  end.

(** [Math.min(a, b)]: NaN when either is NaN, [-0] below [+0]. *)
Definition min (a b : double) : double :=
  match SFcompare a b with
  | None => S754_nan
  | Some Lt => a
  | Some Gt => b
  | Some Eq => match a with
               | S754_zero false => b
               | _ => a
               end
  end.

(** [function clamp(number, min, max)], source lines 19-21. *)
Definition clamp (number lo hi : double) : double :=
  max lo (min number hi).

(** [const far = 999999999], source line 146. *)
Definition far : double := make 999999999 0.

(** [changeX] of [handleOnDrag], source lines 147-151; a bound left out is
    [None]. *)
Definition changeX (minX maxX : option double) (left right dx : double)
  : double :=
  clamp dx
    (match minX with
     | Some m => if isFinite m then sub m left else SFopp far
     | None => SFopp far
     end)
    (match maxX with
     | Some m => if isFinite m then sub m right else far
     | None => far
     end).

End Binary64.

(** The inputs that only report a press or let the animation run. *)
Definition isPassiveInput (i : Input) : bool :=
  match i with
  | PressIn _ | PressOut _ | Press _ | LongPress _
  | SpringFrame _ | SpringSettle => true
  | _ => false
  end.

(** * Properties *)

(** ** The animated value *)

Lemma position_eta (p : Position) :
  Position.mk (Position.x p) (Position.y p) = p.
Proof. destruct p; reflexivity. Qed.

Lemma add_origin_l (p : Position) : Position.add origin p = p.
Proof. destruct p; reflexivity. Qed.

Lemma add_origin_r (p : Position) : Position.add p origin = p.
Proof. destruct p; unfold Position.add; simpl; f_equal; lia. Qed.

Lemma flattenOffset_getValue (v : Animated.ValueXY) :
  Animated.getValue (Animated.flattenOffset v) = Animated.getValue v.
Proof. unfold Animated.getValue; simpl. apply add_origin_l. Qed.

(** A write stores the value and, when the listener is attached, leaves the
    observable value in the mirror. *)
Lemma deliver_write (p : Position) (anim : option Animated.SpringConfig)
  (st : State) :
  deliver (Animated.write p anim (pan st)) st =
  {| pan := {| Animated.value := p;
               Animated.offset := Animated.offset (pan st);
               Animated.listening := Animated.listening (pan st);
               Animated.animation := anim |};
     offsetFromStart := if Animated.listening (pan st)
                        then Position.add p (Animated.offset (pan st))
                        else offsetFromStart st;
     childSize := childSize st;
     startBounds := startBounds st;
     isDragging := isDragging st;
     log := log st |}.
Proof.
  destruct st as [[v o l a] ofs sz sb dr lg], p as [a1 a2].
  destruct l; reflexivity.
Qed.

Lemma deliver_setValue (p : Position) (st : State) :
  deliver (Animated.setValue p (pan st)) st =
  {| pan := {| Animated.value := p;
               Animated.offset := Animated.offset (pan st);
               Animated.listening := Animated.listening (pan st);
               Animated.animation := None |};
     offsetFromStart := if Animated.listening (pan st)
                        then Position.add p (Animated.offset (pan st))
                        else offsetFromStart st;
     childSize := childSize st;
     startBounds := startBounds st;
     isDragging := isDragging st;
     log := log st |}.
Proof. apply deliver_write. Qed.

Lemma last_cons_default (A : Type) (a : A) (l : list A) (d d' : A) :
  last (a :: l) d = last (a :: l) d'.
Proof.
  revert a. induction l as [|b l IH]; intros a; [reflexivity|].
  change (last (b :: l) d = last (b :: l) d'). apply IH.
Qed.

(** The listener only writes the mirror. *)
Lemma listener_fold_fields (cs : list Position) (st : State) :
  let st' := fold_left (fun s c => panListener c s) cs st in
  pan st' = pan st
  /\ childSize st' = childSize st
  /\ startBounds st' = startBounds st
  /\ isDragging st' = isDragging st
  /\ log st' = log st
  /\ offsetFromStart st' = last cs (offsetFromStart st).
Proof.
  revert st. induction cs as [|c cs IH]; intros st; simpl.
  - repeat split.
  - destruct (IH (panListener c st)) as (Hp & Hc & Hs & Hd & Hl & Ho).
    simpl in *. rewrite Hp, Hc, Hs, Hd, Hl, Ho.
    repeat split. destruct cs as [|b cs]; [reflexivity|].
    apply last_cons_default.
Qed.

(** [deliver] only touches the animated value and its mirror. *)
Lemma deliver_fields (r : Animated.ValueXY * list Position) (st : State) :
  pan (deliver r st) = fst r
  /\ childSize (deliver r st) = childSize st
  /\ startBounds (deliver r st) = startBounds st
  /\ isDragging (deliver r st) = isDragging st
  /\ log (deliver r st) = log st
  /\ offsetFromStart (deliver r st) = last (snd r) (offsetFromStart st).
Proof.
  unfold deliver.
  destruct (listener_fold_fields (snd r) (set_pan (fst r) st))
    as (Hp & Hc & Hs & Hd & Hl & Ho).
  simpl in *. auto 10.
Qed.

(** Without a listener the mirror stays as it is. *)
Lemma write_silent (p : Position) (anim : option Animated.SpringConfig)
  (v : Animated.ValueXY) :
  Animated.listening v = false ->
  snd (Animated.write p anim v) = []
  /\ Animated.listening (fst (Animated.write p anim v)) = false.
Proof.
  intros H. unfold Animated.write, Animated.notifications; simpl.
  rewrite H. split; reflexivity.
Qed.

Lemma frame_silent (p : Position) (v : Animated.ValueXY) :
  Animated.listening v = false ->
  snd (Animated.frame p v) = []
  /\ Animated.listening (fst (Animated.frame p v)) = false.
Proof.
  intros H. unfold Animated.frame.
  destruct (Animated.animation v); [apply write_silent; exact H|].
  split; [reflexivity | exact H].
Qed.

Lemma settle_silent (v : Animated.ValueXY) :
  Animated.listening v = false ->
  snd (Animated.settle v) = []
  /\ Animated.listening (fst (Animated.settle v)) = false.
Proof.
  intros H. unfold Animated.settle.
  destruct (Animated.animation v) as [cfg|]; [|split; [reflexivity | exact H]].
  destruct (Animated.toValue cfg); apply write_silent; exact H.
Qed.

(** ** What each handler leaves alone *)

Section Frames.

Variable props : Props.

Lemma reversePosition_fields (st : State) :
  isDragging (reversePosition props st) = isDragging st
  /\ startBounds (reversePosition props st) = startBounds st
  /\ childSize (reversePosition props st) = childSize st
  /\ offsetFromStart (reversePosition props st) = offsetFromStart st
  /\ Animated.listening (pan (reversePosition props st))
     = Animated.listening (pan st).
Proof. repeat split. Qed.

Lemma grant_fields (e : Event) (gs : GestureState) (st : State) :
  let st' := onPanResponderGrant props e gs st in
  isDragging st' = true
  /\ startBounds st' = Some (getBounds props st)
  /\ childSize st' = childSize st
  /\ log st' = log st.
Proof.
  unfold onPanResponderGrant.
  destruct (negb (shouldReverse props)); [|repeat split].
  cbv zeta.
  match goal with |- context [deliver ?r ?s] =>
    destruct (deliver_fields r s) as (_ & Hc & Hs & Hd & Hl & _) end.
  rewrite Hc, Hs, Hd, Hl. repeat split.
Qed.

Lemma drag_fields (e : Event) (gs : GestureState) (st st' : State) :
  handleOnDrag props e gs st = Some st' ->
  isDragging st' = isDragging st
  /\ startBounds st' = startBounds st
  /\ childSize st' = childSize st.
Proof.
  unfold handleOnDrag. destruct (startBounds st) as [sb|] eqn:Hsb; [|discriminate].
  cbv zeta. intros H; injection H as <-.
  destruct (deliver_fields
              (Animated.setValue (dragChange props sb gs) (pan st)) st)
    as (_ & Hc & Hs & Hd & _ & _).
  unfold emit; cbn [isDragging startBounds childSize].
  rewrite Hc, Hs, Hd. repeat split. exact Hsb.
Qed.

Lemma release_fields (e : Event) (gs : GestureState) (st : State) :
  let st' := onPanResponderRelease props e gs st in
  isDragging st' = false
  /\ startBounds st' = startBounds st
  /\ childSize st' = childSize st
  /\ offsetFromStart st' = offsetFromStart st.
Proof.
  unfold onPanResponderRelease.
  destruct (negb (shouldReverse props)), (onDragRelease props);
    repeat split.
Qed.

Lemma springSettle_fields (st : State) :
  isDragging (springSettle st) = isDragging st
  /\ startBounds (springSettle st) = startBounds st
  /\ childSize (springSettle st) = childSize st.
Proof.
  unfold springSettle.
  destruct (deliver_fields (Animated.settle (pan st)) st)
    as (_ & Hc & Hs & Hd & _ & _).
  destruct (Animated.animation (pan st)) as [cfg|]; [|auto].
  destruct (Animated.onSettled cfg); simpl; auto.
Qed.

(** The session invariant is kept by every input. *)
Lemma dispatch_sessionInv (i : Input) (st st' : State) :
  sessionInv st -> dispatch props i st = Some st' -> sessionInv st'.
Proof.
  unfold sessionInv. intros Hinv.
  destruct i; simpl.
  - intros H; injection H as <-. exact Hinv.
  - destruct (isDragging st) eqn:Hd; [intros H; injection H as <-; now rewrite Hd|].
    destruct (shouldStartDrag props gs); intros H; injection H as <-.
    + destruct (grant_fields e gs st) as (_ & Hs & _). intros _.
      rewrite Hs. discriminate.
    + now rewrite Hd.
  - destruct (isDragging st) eqn:Hd.
    + intros H. destruct (drag_fields _ _ _ _ H) as (_ & Hs & _).
      intros _. rewrite Hs. auto.
    + intros H; injection H as <-. now rewrite Hd.
  - destruct (isDragging st) eqn:Hd.
    + intros H; injection H as <-.
      destruct (release_fields e gs st) as (Hd' & _). rewrite Hd'. discriminate.
    + intros H; injection H as <-. now rewrite Hd.
  - intros H; injection H as <-. exact Hinv.
  - intros H; injection H as <-. unfold handlePressOut. simpl.
    destruct (negb (isDragging st)); exact Hinv.
  - intros H; injection H as <-. exact Hinv.
  - intros H; injection H as <-. exact Hinv.
  - intros H; injection H as <-. destruct offset; exact Hinv.
  - intros H; injection H as <-.
    destruct (deliver_fields (Animated.frame p (pan st)) st)
      as (_ & _ & Hs & Hd & _ & _).
    rewrite Hs, Hd. exact Hinv.
  - intros H; injection H as <-.
    destruct (springSettle_fields st) as (Hd & Hs & _).
    rewrite Hs, Hd. exact Hinv.
Qed.

(** No handler raises in a state that satisfies the session invariant. *)
Lemma dispatch_total (i : Input) (st : State) :
  sessionInv st -> exists st', dispatch props i st = Some st'.
Proof.
  intros Hinv. destruct i; simpl; eauto.
  - destruct (isDragging st); [eauto|].
    destruct (shouldStartDrag props gs); eauto.
  - destruct (isDragging st) eqn:Hd; [|eauto].
    unfold handleOnDrag. specialize (Hinv Hd).
    destruct (startBounds st); [eauto | contradiction].
  - destruct (isDragging st); eauto.
Qed.

Lemma mounted_fields :
  isDragging (mounted props) = false
  /\ startBounds (mounted props) = None
  /\ offsetFromStart (mounted props) = origin
  /\ childSize (mounted props)
     = Position.mk (renderSize props) (renderSize props)
  /\ Animated.value (pan (mounted props)) = origin
  /\ Animated.offset (pan (mounted props)) = origin
  /\ Animated.listening (pan (mounted props)) = negb (shouldReverse props).
Proof.
  unfold mounted, useEffect.
  destruct (afterRender props), (shouldReverse props); repeat split.
Qed.

Lemma run_sessionInv (inputs : list Input) (st st' : State) :
  sessionInv st -> run props inputs st = Some st' -> sessionInv st'.
Proof.
  revert st. induction inputs as [|i inputs IH]; intros st Hinv; simpl.
  - intros H; injection H as <-. exact Hinv.
  - destruct (dispatch props i st) as [st1|] eqn:Hd; [|discriminate].
    apply IH. eapply dispatch_sessionInv; eauto.
Qed.

(** Every sequence of inputs runs to the end from a state that satisfies
    the session invariant. *)
Lemma run_total_from (inputs : list Input) (st : State) :
  sessionInv st -> exists st', run props inputs st = Some st'.
Proof.
  revert st. induction inputs as [|i inputs IH]; intros st Hinv; simpl.
  - eauto.
  - destruct (dispatch_total i st Hinv) as [st1 H1]. rewrite H1.
    apply IH. eapply dispatch_sessionInv; eauto.
Qed.

Lemma mounted_sessionInv : sessionInv (mounted props).
Proof.
  unfold sessionInv. destruct mounted_fields as (Hd & _).
  rewrite Hd. discriminate.
Qed.

(** From the mounted component every sequence of inputs runs to the end. *)
Lemma run_total (inputs : list Input) :
  exists st, run props inputs (mounted props) = Some st.
Proof. apply run_total_from, mounted_sessionInv. Qed.

Lemma run_app (l1 l2 : list Input) (st : State) :
  run props (l1 ++ l2) st =
  match run props l1 st with
  | Some st1 => run props l2 st1
  | None => None
  end.
Proof.
  revert st. induction l1 as [|i l1 IH]; intros st; simpl; [reflexivity|].
  destruct (dispatch props i st); [apply IH | reflexivity].
Qed.

End Frames.

(** ** The clamp policy *)

Lemma clamp_between (n lo hi : Z) :
  lo <= hi -> lo <= clamp n lo hi <= hi.
Proof. unfold clamp. lia. Qed.

Lemma clamp_lower (n lo hi : Z) : lo <= clamp n lo hi.
Proof. unfold clamp. lia. Qed.

Lemma clamp_inside (n lo hi : Z) : lo <= n <= hi -> clamp n lo hi = n.
Proof. unfold clamp. lia. Qed.

(** In commit mode the rectangle [handleOnDrag] reports to [onDrag] is the
    start rectangle moved by the clamped change, as long as the element
    keeps the size it had at the grant. *)
Lemma handleOnDrag_reports_translate (props : Props) (e : Event)
  (gs : GestureState) (st : State) (sb : Rectangle) (base : Position) :
  draggingFrom sb base (childSize st) st ->
  sb = currentRectangle (Position.mk (x props) (y props)) base (childSize st) ->
  exists st', handleOnDrag props e gs st = Some st'
    /\ draggingFrom sb base (childSize st) st'
    /\ offsetFromStart st' = Position.add (dragChange props sb gs) base
    /\ Animated.value (pan st') = dragChange props sb gs
    /\ getBounds props st' = translate sb (dragChange props sb gs)
    /\ log st' = log st ++ [OnDrag e gs (Some sb)
                              (translate sb (dragChange props sb gs))].
Proof.
  intros (Hd & Hs & Ho & Hl & _) Hsb.
  unfold handleOnDrag. rewrite Hs. cbv zeta.
  rewrite deliver_setValue, Hl, Ho.
  eexists; split; [reflexivity|].
  assert (Hg : forall lg,
             getBounds props
               {| pan := {| Animated.value := dragChange props sb gs;
                            Animated.offset := base;
                            Animated.listening := true;
                            Animated.animation := None |};
                  offsetFromStart := Position.add (dragChange props sb gs) base;
                  childSize := childSize st;
                  startBounds := startBounds st;
                  isDragging := isDragging st;
                  log := lg |}
             = translate sb (dragChange props sb gs)).
  { intros lg. subst sb.
    unfold getBounds, translate, currentRectangle, Position.add; simpl.
    f_equal; lia. }
  unfold emit; cbn [pan offsetFromStart childSize startBounds isDragging log].
  rewrite (Hg (log st)), (Hg (log st ++ _)), Hs.
  unfold draggingFrom; simpl. auto 10.
Qed.

(** C1, as stated, fails: a 36 wide element with [minX = 0] and
    [maxX = 10] cannot fit, the lower bound wins and the right edge stays at
    36, outside [[0, 10]]. *)
Lemma clamp_correctness_counterexample :
  let props := mkProps false None false true false 36 0 0
                 (Number (Finite 0)) Undefined (Number (Finite 10)) Undefined in
  let sb := mkRectangle 0 0 36 36 in
  let r := translate sb (dragChange props sb (mkGesture 0 0)) in
  Number_isFinite (minX props) = true
  /\ Number_isFinite (maxX props) = true
  /\ right r = 36
  /\ ~ (toZ (minX props) <= right r <= toZ (maxX props)).
Proof. cbv. repeat split; intros [H1 H2]; apply H2; reflexivity. Qed.

(** A lone upper bound further than [far] below the edge is not reached:
    the change stops at [- far] and the right edge stays past [maxX]. *)
Lemma clamp_far_proviso_counterexample :
  let props := mkProps false None false true false 36 0 0
                 Undefined Undefined (Number (Finite 0)) Undefined in
  let sb := mkRectangle 1999999964 0 2000000000 36 in
  let r := translate sb (dragChange props sb (mkGesture 0 0)) in
  Position.x (dragChange props sb (mkGesture 0 0)) = -999999999
  /\ right r = 1000000001
  /\ ~ (right r <= toZ (maxX props)).
Proof. cbv. repeat split. intros H; apply H; reflexivity. Qed.

(** In binary64 the limits are limits on the change, not on the edge that
    results: with [left = 0.5], [minX = 0.1] and a move of [-1000] the
    change is the lower limit [minX - left], and [left + (minX - left)]
    rounds below [minX]. *)
Lemma clamp_edge_rounding_binary64 :
  let left := Binary64.make 1 (-1) in
  let right := Binary64.make 73 (-1) in
  let minX := Binary64.make 7205759403792794 (-56) in
  let maxX := Binary64.make 100 0 in
  let change :=
    Binary64.changeX (Some minX) (Some maxX) left right
      (Binary64.make (-1000) 0) in
  change = Binary64.sub minX left
  /\ SFcompare (Binary64.add left change) minX = Some Lt.
Proof. vm_compute. split; reflexivity. Qed.

(** C1 (amended): the clamp limits the change by the two differences the
    code computes, [lo = min - edge] and [hi = max - opposite edge] of the
    start rectangle.  With both bounds of an axis defined and [lo <= hi]
    the change lies between them: it is the delta itself when the delta
    does, and the nearer limit otherwise; with [hi < lo] the change is
    [lo].  With only the lower bound defined only that side is limited: the
    change is never below [lo] and is the delta itself from [lo] up to
    [far], beyond which it is [far] (or [lo] if larger).  With only the
    upper bound defined only that side is limited: when [- far <= hi] the
    change is never above [hi] and is the delta itself from [- far] up to
    [hi], below which it is [- far]; when [hi < - far] the change is
    [- far]. *)
Theorem clamp_correctness (props : Props) (sb : Rectangle)
  (gs : GestureState) :
  let c := dragChange props sb gs in
  (Number_isFinite (minX props) = true ->
   Number_isFinite (maxX props) = true ->
   let lo := toZ (minX props) - left sb in
   let hi := toZ (maxX props) - right sb in
   (lo <= hi ->
    lo <= Position.x c <= hi
    /\ (lo <= dx gs <= hi -> Position.x c = dx gs)
    /\ (dx gs <= lo -> Position.x c = lo)
    /\ (hi <= dx gs -> Position.x c = hi))
   /\ (hi < lo -> Position.x c = lo))
  /\ (Number_isFinite (minY props) = true ->
      Number_isFinite (maxY props) = true ->
      let lo := toZ (minY props) - top sb in
      let hi := toZ (maxY props) - bottom sb in
      (lo <= hi ->
       lo <= Position.y c <= hi
       /\ (lo <= dy gs <= hi -> Position.y c = dy gs)
       /\ (dy gs <= lo -> Position.y c = lo)
       /\ (hi <= dy gs -> Position.y c = hi))
      /\ (hi < lo -> Position.y c = lo))
  /\ (Number_isFinite (minX props) = true ->
      Number_isFinite (maxX props) = false ->
      let lo := toZ (minX props) - left sb in
      lo <= Position.x c
      /\ (lo <= dx gs <= far -> Position.x c = dx gs)
      /\ (dx gs <= lo -> Position.x c = lo)
      /\ (far <= dx gs -> Position.x c = Z.max lo far))
  /\ (Number_isFinite (minY props) = true ->
      Number_isFinite (maxY props) = false ->
      let lo := toZ (minY props) - top sb in
      lo <= Position.y c
      /\ (lo <= dy gs <= far -> Position.y c = dy gs)
      /\ (dy gs <= lo -> Position.y c = lo)
      /\ (far <= dy gs -> Position.y c = Z.max lo far))
  /\ (Number_isFinite (minX props) = false ->
      Number_isFinite (maxX props) = true ->
      let hi := toZ (maxX props) - right sb in
      (- far <= hi ->
       Position.x c <= hi
       /\ (- far <= dx gs <= hi -> Position.x c = dx gs)
       /\ (hi <= dx gs -> Position.x c = hi)
       /\ (dx gs <= - far -> Position.x c = - far))
      /\ (hi < - far -> Position.x c = - far))
  /\ (Number_isFinite (minY props) = false ->
      Number_isFinite (maxY props) = true ->
      let hi := toZ (maxY props) - bottom sb in
      (- far <= hi ->
       Position.y c <= hi
       /\ (- far <= dy gs <= hi -> Position.y c = dy gs)
       /\ (hi <= dy gs -> Position.y c = hi)
       /\ (dy gs <= - far -> Position.y c = - far))
      /\ (hi < - far -> Position.y c = - far)).
Proof.
  unfold dragChange, clamp, far; simpl.
  repeat split; intros;
    repeat match goal with H : Number_isFinite _ = _ |- _ => rewrite H end;
    lia.
Qed.

Lemma clamp_correctness_witness :
  let props := mkProps false None false true false 36 0 0
                 (Number (Finite 0)) (Number (Finite 0))
                 (Number (Finite 100)) Undefined in
  let sb := mkRectangle 0 0 36 36 in
  (0 <= Position.x (dragChange props sb (mkGesture 80 (-7))) <= 64
   /\ Position.x (dragChange props sb (mkGesture 80 (-7))) = 64)
  /\ Position.y (dragChange props sb (mkGesture 80 (-7))) = 0.
Proof.
  pose proof (clamp_correctness
    (mkProps false None false true false 36 0 0
       (Number (Finite 0)) (Number (Finite 0))
       (Number (Finite 100)) Undefined)
    (mkRectangle 0 0 36 36) (mkGesture 80 (-7))) as (HX & _ & _ & HY & _).
  destruct (HX eq_refl eq_refl) as (Hfit & _).
  destruct Hfit as (Hrange & _ & _ & Hhi); [simpl; lia|].
  destruct (HY eq_refl eq_refl) as (_ & _ & Hlo & _).
  split; [split|].
  - exact Hrange.
  - apply Hhi. simpl; lia.
  - apply Hlo. simpl; lia.
Defined.

(** C2, as stated, fails: the sentinel for a missing bound is the finite
    [far], so a finite delta beyond it is limited. *)
Lemma no_bound_passthrough_counterexample :
  let props := mkProps false None false true false 36 0 0
                 Undefined Undefined Undefined Undefined in
  let sb := mkRectangle 0 0 36 36 in
  Position.x (dragChange props sb (mkGesture 1000000000 0)) = 999999999
  /\ Position.x (dragChange props sb (mkGesture 1000000000 0))
     <> dx (mkGesture 1000000000 0).
Proof. cbv. split; [reflexivity | discriminate]. Qed.

(** C2 (amended): on an axis without a finite bound the change is the delta
    itself as long as the delta is within [far] of zero, and [far] or
    [- far] beyond. *)
Theorem no_bound_passthrough (props : Props) (sb : Rectangle)
  (gs : GestureState) :
  (Number_isFinite (minX props) = false ->
   Number_isFinite (maxX props) = false ->
   Position.x (dragChange props sb gs) = clamp (dx gs) (- far) far
   /\ (- far <= dx gs <= far -> Position.x (dragChange props sb gs) = dx gs)
   /\ (far <= dx gs -> Position.x (dragChange props sb gs) = far)
   /\ (dx gs <= - far -> Position.x (dragChange props sb gs) = - far))
  /\ (Number_isFinite (minY props) = false ->
      Number_isFinite (maxY props) = false ->
      Position.y (dragChange props sb gs) = clamp (dy gs) (- far) far
      /\ (- far <= dy gs <= far -> Position.y (dragChange props sb gs) = dy gs)
      /\ (far <= dy gs -> Position.y (dragChange props sb gs) = far)
      /\ (dy gs <= - far -> Position.y (dragChange props sb gs) = - far)).
Proof.
  unfold dragChange, clamp, far; simpl.
  split; intros H1 H2; rewrite H1, H2; repeat split; lia.
Qed.

Lemma no_bound_passthrough_witness :
  let props := mkProps false None false true false 36 0 0
                 Undefined (Number NaN) (Number PosInfinity) Undefined in
  let sb := mkRectangle 0 0 36 36 in
  Position.x (dragChange props sb (mkGesture 123456 (-42))) = 123456
  /\ Position.y (dragChange props sb (mkGesture 123456 (-42))) = -42.
Proof.
  pose proof (no_bound_passthrough
    (mkProps false None false true false 36 0 0
       Undefined (Number NaN) (Number PosInfinity) Undefined)
    (mkRectangle 0 0 36 36) (mkGesture 123456 (-42))) as (HX & HY).
  destruct (HX eq_refl eq_refl) as (_ & Hx & _).
  destruct (HY eq_refl eq_refl) as (_ & Hy & _).
  split; [apply Hx | apply Hy]; unfold far; simpl; lia.
Defined.

(** C3: base [{0,0}], size [{36,36}], only [maxX = 100].  The start
    rectangle taken at the grant has its right edge at 36, the upper bound
    on the change is [100 - 36 = 64], and the attempted delta [{80,0}] is
    clamped to [{64,0}], which is what the move writes into the animated
    value. *)
Theorem scenario_maxX_100 (rev : bool)
  (onRev : option (unit -> option Position)) (release render : bool)
  (e0 e1 : Event) :
  let props := mkProps rev onRev false release render 36 0 0
                 Undefined Undefined (Number (Finite 100)) Undefined in
  let sb := mkRectangle 0 0 36 36 in
  getBounds props (mounted props) = sb
  /\ right sb = 36
  /\ toZ (maxX props) - right sb = 64
  /\ dragChange props sb (mkGesture 80 0) = Position.mk 64 0
  /\ exists st,
       run props [MoveShouldSet e0 (mkGesture 3 0);
                  PanMove e1 (mkGesture 80 0)] (mounted props) = Some st
       /\ startBounds st = Some sb
       /\ Animated.value (pan st) = Position.mk 64 0
       /\ In (OnDrag e1 (mkGesture 80 0) (Some sb)
                (getBounds props st)) (log st).
Proof.
  destruct rev, render; cbv zeta;
    (split; [reflexivity|]); (split; [reflexivity|]);
    (split; [reflexivity|]); (split; [reflexivity|]);
    (eexists; split; [reflexivity|]);
    (split; [reflexivity|]); (split; [reflexivity|]);
    simpl; auto 10.
Qed.

(** ** The drag threshold *)

Lemma shouldStartDrag_below (props : Props) (gs : GestureState) :
  belowThreshold gs -> shouldStartDrag props gs = false.
Proof.
  intros [Hx Hy]. unfold shouldStartDrag.
  replace (Z.abs (dx gs) >? 2) with false by (symmetry; lia).
  replace (Z.abs (dy gs) >? 2) with false by (symmetry; lia).
  apply andb_false_r.
Qed.

Lemma shouldStartDrag_disabled (props : Props) (gs : GestureState) :
  disabled props = true -> shouldStartDrag props gs = false.
Proof. intros H. unfold shouldStartDrag. rewrite H. reflexivity. Qed.

(** Moves that the guard refuses leave an idle component as it is. *)
Lemma run_refused_moves (props : Props) (e : Event)
  (moves : list GestureState) (st : State) :
  Forall (fun gs => shouldStartDrag props gs = false) moves ->
  run props (map (MoveShouldSet e) moves) st = Some st.
Proof.
  induction 1 as [|gs moves Hgs _ IH]; simpl; [reflexivity|].
  rewrite Hgs. destruct (isDragging st); exact IH.
Qed.

(** C6: while the cumulative movement stays within 2 units on both axes the
    guard answers no and a sequence of such moves leaves the machine idle
    and unchanged; a movement of 3 units on the X axis alone takes an
    enabled machine from idle to dragging; a disabled machine refuses every
    movement. *)
Theorem drag_threshold (props : Props) (e : Event) (st : State) :
  (forall moves, Forall belowThreshold moves ->
     Forall (fun gs => shouldStartDrag props gs = false) moves
     /\ run props (map (MoveShouldSet e) moves) st = Some st)
  /\ (forall gs, disabled props = false ->
        Z.abs (dx gs) = 3 -> dy gs = 0 ->
        shouldStartDrag props gs = true
        /\ (isDragging st = false ->
            dispatch props (MoveShouldSet e gs) st
              = Some (onPanResponderGrant props e gs st)
            /\ isDragging (onPanResponderGrant props e gs st) = true))
  /\ (disabled props = true ->
      forall moves,
        Forall (fun gs => shouldStartDrag props gs = false) moves
        /\ run props (map (MoveShouldSet e) moves) st = Some st).
Proof.
  split; [|split].
  - intros moves Hb.
    assert (Hf : Forall (fun gs => shouldStartDrag props gs = false) moves).
    { eapply Forall_impl; [|exact Hb]. apply shouldStartDrag_below. }
    split; [exact Hf | apply run_refused_moves; exact Hf].
  - intros gs Hen Hx Hy.
    assert (Hs : shouldStartDrag props gs = true).
    { unfold shouldStartDrag. rewrite Hen, Hx. reflexivity. }
    split; [exact Hs|]. intros Hidle. simpl. rewrite Hidle, Hs.
    split; [reflexivity|]. apply grant_fields.
  - intros Hdis moves.
    assert (Hf : Forall (fun gs => shouldStartDrag props gs = false) moves).
    { apply Forall_forall. intros gs _.
      apply shouldStartDrag_disabled; exact Hdis. }
    split; [exact Hf | apply run_refused_moves; exact Hf].
Qed.

Lemma drag_threshold_witness :
  let props := mkProps false None false true false 36 0 0
                 Undefined Undefined Undefined Undefined in
  let off := mkProps false None true true false 36 0 0
               Undefined Undefined Undefined Undefined in
  run props (map (MoveShouldSet 0%nat)
               [mkGesture 1 1; mkGesture 2 (-2); mkGesture (-2) 0])
      (mounted props) = Some (mounted props)
  /\ isDragging (onPanResponderGrant props 0%nat (mkGesture (-3) 0)
                   (mounted props)) = true
  /\ run off (map (MoveShouldSet 0%nat) [mkGesture 300 0; mkGesture 0 (-40)])
       (mounted off) = Some (mounted off).
Proof.
  pose proof (drag_threshold
    (mkProps false None false true false 36 0 0
       Undefined Undefined Undefined Undefined) 0%nat
    (mounted (mkProps false None false true false 36 0 0
                Undefined Undefined Undefined Undefined)))
    as (Hbelow & Hcross & _).
  pose proof (drag_threshold
    (mkProps false None true true false 36 0 0
       Undefined Undefined Undefined Undefined) 0%nat
    (mounted (mkProps false None true true false 36 0 0
                Undefined Undefined Undefined Undefined)))
    as (_ & _ & Hdisabled).
  split; [|split].
  - apply Hbelow.
    repeat (apply Forall_cons; [unfold belowThreshold; simpl; lia|]).
    apply Forall_nil.
  - apply (Hcross (mkGesture (-3) 0)); reflexivity.
  - apply Hdisabled. reflexivity.
Defined.

(** ** Springs *)

Lemma springTargets_app (l1 l2 : list Effect) :
  springTargets (l1 ++ l2) = springTargets l1 ++ springTargets l2.
Proof.
  induction l1 as [|eff l1 IH]; simpl; [reflexivity|].
  destruct eff; simpl; rewrite IH; reflexivity.
Qed.

Lemma reverseTarget_cases (props : Props) :
  (onReverse props = None -> reverseTarget props = origin)
  /\ (forall f, onReverse props = Some f -> f tt = None ->
        reverseTarget props = origin)
  /\ (forall f p, onReverse props = Some f -> f tt = Some p ->
        reverseTarget props = p).
Proof.
  unfold reverseTarget. repeat split.
  - intros H; rewrite H; reflexivity.
  - intros f H Hf; rewrite H, Hf; reflexivity.
  - intros f p H Hf; rewrite H, Hf; reflexivity.
Qed.

(** C5: with reversal enabled, the release of any drag, from any state and
    whatever the gesture moved, starts a spring whose target is the origin
    when there is no custom reverse function or when that function answers
    undefined, and the answer of the function otherwise. *)
Theorem reverse_law (props : Props) (e : Event) (gs : GestureState)
  (st : State) :
  shouldReverse props = true ->
  isDragging st = true ->
  exists st' cfg,
    dispatch props (PanRelease e gs) st = Some st'
    /\ Animated.animation (pan st') = Some cfg
    /\ In (SpringStart cfg) (log st')
    /\ springTargets (log st')
       = springTargets (log st) ++ [Animated.toValue cfg]
    /\ (onReverse props = None -> Animated.toValue cfg = Some origin)
    /\ (forall f, onReverse props = Some f -> f tt = None ->
          Animated.toValue cfg = Some origin)
    /\ (forall f p, onReverse props = Some f -> f tt = Some p ->
          Animated.toValue cfg = Some p).
Proof.
  intros Hrev Hdrag.
  destruct (reverseTarget_cases props) as (Hnone & Hundef & Hdef).
  simpl. rewrite Hdrag. unfold onPanResponderRelease. rewrite Hrev. simpl.
  eexists. exists {| Animated.toValue := Some (reverseTarget props);
                     Animated.restDisplacementThreshold := None;
                     Animated.restSpeedThreshold := None;
                     Animated.onSettled := false |}.
  split; [reflexivity|].
  destruct (onDragRelease props); simpl;
    (split; [reflexivity|]);
    (split; [rewrite !in_app_iff; simpl; auto|]);
    (split; [rewrite !springTargets_app; simpl;
             rewrite ?app_nil_r; reflexivity|]);
    (split; [intros H; rewrite (Hnone H); reflexivity|]);
    (split; [intros f H Hf; rewrite (Hundef f H Hf); reflexivity|]);
    intros f p H Hf; rewrite (Hdef f p H Hf); reflexivity.
Qed.

Lemma reverse_law_witness :
  let props := mkProps true None false true false 36 0 0
                 Undefined Undefined Undefined Undefined in
  let st0 := onPanResponderGrant props 0%nat (mkGesture 3 0) (mounted props) in
  exists st' cfg,
    dispatch props (PanRelease 2%nat (mkGesture 250 (-90))) st0 = Some st'
    /\ Animated.animation (pan st') = Some cfg
    /\ Animated.toValue cfg = Some origin.
Proof.
  cbv zeta.
  destruct (reverse_law
    (mkProps true None false true false 36 0 0
       Undefined Undefined Undefined Undefined)
    2%nat (mkGesture 250 (-90))
    (onPanResponderGrant
       (mkProps true None false true false 36 0 0
          Undefined Undefined Undefined Undefined) 0%nat (mkGesture 3 0)
       (mounted (mkProps true None false true false 36 0 0
                   Undefined Undefined Undefined Undefined)))
    eq_refl eq_refl)
    as (st' & cfg & Hd & Ha & _ & _ & Hnone & _).
  exists st', cfg.
  split; [exact Hd | split; [exact Ha | apply Hnone; reflexivity]].
Defined.

(** C7, as stated, fails: [animateTo] called without a target raises; no
    spring is started, towards the origin or anywhere else, and the
    component is as it was. *)
Lemma animateTo_fallback_counterexample :
  let props := mkProps false None false true false 36 0 0
                 Undefined Undefined Undefined Undefined in
  animateTo None false (mounted props) = None
  /\ dispatch props (CallAnimateTo None false) (mounted props)
     = Some (mounted props)
  /\ springTargets (log (mounted props)) = []
  /\ Animated.animation (pan (mounted props)) = None.
Proof. cbv zeta. repeat split. Qed.

(** C7 (amended): [animateTo] with a target starts a spring towards that
    very target, from any state.  Without a target it raises, whatever the
    state: nothing is started and the component is as it was.  The fallback
    to the origin belongs to [reversePosition], whose target is always a
    defined position. *)
Theorem animateTo_passes_target (props : Props) (target : Position)
  (callback : bool) (st : State) :
  (exists st' cfg,
     animateTo (Some target) callback st = Some st'
     /\ dispatch props (CallAnimateTo (Some target) callback) st = Some st'
     /\ Animated.animation (pan st') = Some cfg
     /\ Animated.toValue cfg = Some target
     /\ log st' = log st ++ [SpringStart cfg]
     /\ springTargets (log st') = springTargets (log st) ++ [Some target])
  /\ animateTo None callback st = None
  /\ dispatch props (CallAnimateTo None callback) st = Some st
  /\ springTargets (log (reversePosition props st))
     = springTargets (log st) ++ [Some (reverseTarget props)].
Proof.
  split; [|split; [|split]].
  - eexists. eexists. split; [reflexivity|]. split; [reflexivity|].
    split; [reflexivity|]. split; [reflexivity|]. split; [reflexivity|].
    simpl. rewrite springTargets_app. reflexivity.
  - reflexivity.
  - reflexivity.
  - unfold reversePosition; simpl. rewrite springTargets_app. reflexivity.
Qed.

(** ** The session and its start rectangle *)

(** C8, as stated, fails: after a drag and its release the session is no
    longer active and the start rectangle is still there. *)
Lemma startBounds_only_when_active_counterexample :
  let props := mkProps false None false true false 36 0 0
                 Undefined Undefined Undefined Undefined in
  exists st,
    run props (drag 0%nat (mkGesture 3 0) [] (mkGesture 3 0)) (mounted props)
      = Some st
    /\ isDragging st = false
    /\ startBounds st = Some (mkRectangle 0 0 36 36).
Proof. cbv zeta. eexists. repeat split. Qed.

Lemma dispatch_startBounds_kept (props : Props) (i : Input)
  (st st' : State) :
  dispatch props i st = Some st' ->
  startBounds st <> None -> startBounds st' <> None.
Proof.
  destruct i; simpl.
  - intros H; injection H as <-. auto.
  - destruct (isDragging st); [intros H; injection H as <-; auto|].
    destruct (shouldStartDrag props gs); intros H; injection H as <-; auto.
    destruct (grant_fields props e gs st) as (_ & Hs & _).
    rewrite Hs. discriminate.
  - destruct (isDragging st).
    + intros H. destruct (drag_fields _ _ _ _ _ H) as (_ & Hs & _).
      rewrite Hs. auto.
    + intros H; injection H as <-. auto.
  - destruct (isDragging st); intros H; injection H as <-; auto.
    destruct (release_fields props e gs st) as (_ & Hs & _).
    rewrite Hs. auto.
  - intros H; injection H as <-. auto.
  - intros H; injection H as <-. unfold handlePressOut; simpl.
    destruct (negb (isDragging st)); auto.
  - intros H; injection H as <-. auto.
  - intros H; injection H as <-. auto.
  - intros H; injection H as <-. destruct offset; simpl; auto.
  - intros H; injection H as <-.
    destruct (deliver_fields (Animated.frame p (pan st)) st)
      as (_ & _ & Hs & _). rewrite Hs. auto.
  - intros H; injection H as <-.
    destruct (springSettle_fields st) as (_ & Hs & _). rewrite Hs. auto.
Qed.

Lemma run_startBounds_kept (props : Props) (inputs : list Input)
  (st st' : State) :
  run props inputs st = Some st' ->
  startBounds st <> None -> startBounds st' <> None.
Proof.
  revert st. induction inputs as [|i inputs IH]; intros st; simpl.
  - intros H; injection H as <-. auto.
  - destruct (dispatch props i st) as [st1|] eqn:Hd; [|discriminate].
    intros H Hs. apply (IH st1 H).
    eapply dispatch_startBounds_kept; eauto.
Qed.

(** C8 (amended): every sequence of inputs runs from the mounted component
    to a state in which an active session has its start rectangle.  The
    start rectangle is undefined at mount; the release ends the session and
    keeps it, and once defined it stays defined. *)
Theorem startBounds_defined_while_active (props : Props)
  (inputs : list Input) :
  startBounds (mounted props) = None
  /\ exists st,
       run props inputs (mounted props) = Some st
       /\ (isDragging st = true -> exists r, startBounds st = Some r)
       /\ (forall e gs,
             isDragging (onPanResponderRelease props e gs st) = false
             /\ startBounds (onPanResponderRelease props e gs st)
                = startBounds st)
       /\ (forall more st', run props more st = Some st' ->
             startBounds st <> None -> startBounds st' <> None).
Proof.
  split; [apply mounted_fields|].
  destruct (run_total props inputs) as [st Hrun].
  exists st. split; [exact Hrun|].
  split; [|split].
  - intros Hd.
    pose proof (run_sessionInv props inputs _ _
                  (mounted_sessionInv props) Hrun Hd) as Hs.
    destruct (startBounds st) as [r|]; [eauto | contradiction].
  - intros e gs. destruct (release_fields props e gs st) as (Hd & Hs & _).
    split; assumption.
  - intros more st'. apply run_startBounds_kept.
Qed.

Lemma startBounds_defined_while_active_witness :
  let props := mkProps false None false true false 36 0 0
                 Undefined Undefined Undefined Undefined in
  exists st,
    run props [MoveShouldSet 0%nat (mkGesture 3 0);
               PanMove 0%nat (mkGesture 9 9)] (mounted props) = Some st
    /\ isDragging st = true
    /\ exists r, startBounds st = Some r.
Proof.
  cbv zeta.
  destruct (startBounds_defined_while_active
    (mkProps false None false true false 36 0 0
       Undefined Undefined Undefined Undefined)
    [MoveShouldSet 0%nat (mkGesture 3 0); PanMove 0%nat (mkGesture 9 9)])
    as (_ & st & Hrun & Hact & _).
  exists st. split; [exact Hrun|].
  assert (Hd : isDragging st = true).
  { revert Hrun. cbv. intros H; injection H as <-. reflexivity. }
  split; [exact Hd | exact (Hact Hd)].
Defined.

(** ** Tap or drag *)

(** The press-out that arrives while a drag is granted is passed on and is
    not reported as a release. *)
Lemma handlePressOut_while_dragging (e : Event) (st : State) :
  isDragging st = true ->
  handlePressOut e st = emit (OnPressOut e) st.
Proof. intros H. unfold handlePressOut; simpl. rewrite H. reflexivity. Qed.

Lemma handlePressOut_idle (e : Event) (st : State) :
  isDragging st = false ->
  handlePressOut e st = emit (OnRelease e false) (emit (OnPressOut e) st).
Proof. intros H. unfold handlePressOut; simpl. rewrite H. reflexivity. Qed.

(** What a release reports: the spring of the reverse path if any, then the
    drag release and the released notifier with the flag true when the
    drag-release callback is set; never a short tap, never the released
    notifier with the flag false. *)
Lemma release_log (props : Props) (e : Event) (gs : GestureState)
  (st : State) :
  exists effs,
    log (onPanResponderRelease props e gs st) = log st ++ effs
    /\ (forall e', ~ In (OnRelease e' false) effs)
    /\ (forall e', ~ In (OnShortPressRelease e') effs)
    /\ (onDragRelease props = true ->
        In (OnDragRelease e gs (startBounds st) (getBounds props st)) effs
        /\ In (OnRelease e true) effs).
Proof.
  unfold onPanResponderRelease.
  destruct (shouldReverse props), (onDragRelease props); cbn [negb].
  - eexists. split; [simpl; rewrite <- !app_assoc; reflexivity|].
    split; [|split]; simpl.
    + intros e' [H | [H | [H | []]]]; discriminate.
    + intros e' [H | [H | [H | []]]]; discriminate.
    + auto.
  - eexists. split; [simpl; reflexivity|].
    split; [|split]; simpl.
    + intros e' [H | []]; discriminate.
    + intros e' [H | []]; discriminate.
    + discriminate.
  - eexists. split; [simpl; rewrite <- !app_assoc; reflexivity|].
    split; [|split]; simpl.
    + intros e' [H | [H | []]]; discriminate.
    + intros e' [H | [H | []]]; discriminate.
    + auto.
  - exists []. split; [simpl; rewrite app_nil_r; reflexivity|].
    split; [|split]; simpl; auto. discriminate.
Qed.

(** C9: a press and release whose moves stay below the threshold and end at
    [{1,1}], on an idle component, fires press-in, press-out, the released
    notifier with the flag false and the short tap, in this order, and
    nothing else: no drag release, no released notifier with the flag true;
    the component is idle afterwards.  On the other path, the press-out
    that arrives during a drag is not reported as a release, and the release
    of a drag reports the drag release and the released notifier with the
    flag true, never a short tap nor the flag false. *)
Theorem tap_is_not_a_drag (props : Props) (e : Event)
  (moves : list GestureState) (st : State) :
  isDragging st = false ->
  Forall belowThreshold moves ->
  (exists st',
     run props (tap e (moves ++ [mkGesture 1 1])) st = Some st'
     /\ log st' = log st ++ [OnPressIn e; OnPressOut e; OnRelease e false;
                             OnShortPressRelease e]
     /\ In (OnShortPressRelease e) (log st')
     /\ In (OnRelease e false) (log st')
     /\ (forall eff,
           In eff [OnPressIn e; OnPressOut e; OnRelease e false;
                   OnShortPressRelease e] ->
           isDragRelease eff = false /\ eff <> OnRelease e true)
     /\ isDragging st' = false
     /\ startBounds st' = startBounds st
     /\ offsetFromStart st' = offsetFromStart st)
  /\ (forall sd, isDragging sd = true ->
        log (handlePressOut e sd) = log sd ++ [OnPressOut e])
  /\ (forall sd gs, exists effs,
        log (onPanResponderRelease props e gs sd) = log sd ++ effs
        /\ ~ In (OnRelease e false) effs
        /\ ~ In (OnShortPressRelease e) effs
        /\ (onDragRelease props = true ->
            In (OnDragRelease e gs (startBounds sd) (getBounds props sd)) effs
            /\ In (OnRelease e true) effs)).
Proof.
  intros Hidle Hmoves.
  split; [|split].
  2:{ intros sd Hd. rewrite handlePressOut_while_dragging by exact Hd.
      reflexivity. }
  2:{ intros sd gs. destruct (release_log props e gs sd)
        as (effs & Hlog & Hf & Hs & Hdr).
      exists effs. auto. }
  assert (Hall : Forall (fun gs => shouldStartDrag props gs = false)
                   (moves ++ [mkGesture 1 1])).
  { apply Forall_app. split.
    - eapply Forall_impl; [|exact Hmoves]. apply shouldStartDrag_below.
    - constructor; [|constructor].
      apply shouldStartDrag_below. unfold belowThreshold; simpl; lia. }
  unfold tap.
  cbn [run dispatch]. rewrite run_app.
  rewrite (run_refused_moves props e _ _ Hall).
  cbn [run dispatch].
  rewrite handlePressOut_idle by exact Hidle.
  eexists. split; [reflexivity|].
  assert (Hlog : log (emit (OnShortPressRelease e)
                        (emit (OnRelease e false)
                           (emit (OnPressOut e) (emit (OnPressIn e) st))))
                 = log st ++ [OnPressIn e; OnPressOut e; OnRelease e false;
                              OnShortPressRelease e]).
  { simpl. rewrite <- !app_assoc. reflexivity. }
  split; [exact Hlog|].
  split; [rewrite Hlog; apply in_or_app; right; simpl; auto|].
  split; [rewrite Hlog; apply in_or_app; right; simpl; auto|].
  split.
  - intros eff [<- | [<- | [<- | [<- | []]]]];
      (split; [reflexivity | discriminate]).
  - simpl. auto.
Qed.

Lemma tap_is_not_a_drag_witness :
  let props := mkProps false None false true false 36 0 0
                 Undefined Undefined Undefined Undefined in
  exists st',
    run props (tap 7%nat ([mkGesture 0 1; mkGesture 2 (-1)] ++ [mkGesture 1 1]))
      (mounted props) = Some st'
    /\ log st' = [OnPressIn 7%nat; OnPressOut 7%nat; OnRelease 7%nat false;
                  OnShortPressRelease 7%nat].
Proof.
  cbv zeta.
  destruct (tap_is_not_a_drag
    (mkProps false None false true false 36 0 0
       Undefined Undefined Undefined Undefined)
    7%nat [mkGesture 0 1; mkGesture 2 (-1)]
    (mounted (mkProps false None false true false 36 0 0
                Undefined Undefined Undefined Undefined)) eq_refl)
    as ((st' & Hrun & Hlog & _) & _).
  - repeat (apply Forall_cons; [unfold belowThreshold; simpl; lia|]).
    apply Forall_nil.
  - exists st'. split; [exact Hrun | exact Hlog].
Defined.

(** ** Reversal mode *)

Lemma getBounds_reverseInv (props : Props) (st : State) :
  reverseInv st ->
  getBounds props st = baseRectangle props (childSize st).
Proof.
  intros [_ Ho]. unfold getBounds, baseRectangle, currentRectangle.
  rewrite Ho. reflexivity.
Qed.

Lemma baseRectangle_atBase (props : Props) (sz : Position) :
  atBase props (baseRectangle props sz).
Proof.
  unfold atBase, baseRectangle, currentRectangle; destruct sz; simpl.
  f_equal; f_equal; lia.
Qed.

(** Without a listener [deliver] leaves the mirror alone. *)
Lemma deliver_silent (r : Animated.ValueXY * list Position) (st : State) :
  snd r = [] ->
  Animated.listening (fst r) = false ->
  reverseInv st -> reverseInv (deliver r st).
Proof.
  intros Hn Hl [_ Ho].
  destruct (deliver_fields r st) as (Hp & _ & _ & _ & _ & Hofs).
  unfold reverseInv. rewrite Hp, Hofs, Hn. simpl. auto.
Qed.

Lemma mounted_reverseModeInv (props : Props) :
  shouldReverse props = true -> reverseModeInv props (mounted props).
Proof.
  intros Hrev. unfold reverseModeInv, reverseInv.
  destruct (mounted_fields props) as (_ & Hs & Ho & _ & _ & _ & Hl).
  rewrite Hs, Ho, Hl, Hrev. repeat split; try discriminate.
  unfold mounted, useEffect. rewrite Hrev.
  destruct (afterRender props); simpl;
    intros eff r [<- | H]; simpl; try contradiction;
    destruct H as [<- | []]; contradiction.
Qed.

Lemma reported_emit (props : Props) (eff : Effect) (st : State) :
  (forall r, In r (reported eff) -> atBase props r) ->
  (forall eff' r, In eff' (log st) -> In r (reported eff') ->
     atBase props r) ->
  forall eff' r, In eff' (log (emit eff st)) -> In r (reported eff') ->
    atBase props r.
Proof.
  intros Hnew Hold eff' r Hin Hr. simpl in Hin.
  apply in_app_or in Hin. destruct Hin as [Hin | [<- | []]]; eauto.
Qed.

(** In reversal mode every input keeps [reverseModeInv]. *)
Lemma dispatch_reverseModeInv (props : Props) (i : Input)
  (st st' : State) :
  shouldReverse props = true ->
  reverseModeInv props st ->
  dispatch props i st = Some st' ->
  reverseModeInv props st'.
Proof.
  intros Hrev (Hinv & Hsb & Hlog).
  pose proof Hinv as [Hl Ho].
  destruct i; simpl.
  - intros H; injection H as <-. repeat split; assumption.
  - destruct (isDragging st);
      [intros H; injection H as <-; repeat split; assumption|].
    destruct (shouldStartDrag props gs); intros H; injection H as <-;
      [|repeat split; assumption].
    unfold onPanResponderGrant. rewrite Hrev. simpl.
    repeat split; try assumption.
    intros r H; injection H as <-.
    rewrite (getBounds_reverseInv props st Hinv).
    apply baseRectangle_atBase.
  - destruct (isDragging st);
      [|intros H; injection H as <-; repeat split; assumption].
    unfold handleOnDrag. destruct (startBounds st) as [sb|] eqn:Hs;
      [|discriminate].
    cbv zeta. intros H; injection H as <-.
    set (r := Animated.setValue (dragChange props sb gs) (pan st)).
    destruct (write_silent (dragChange props sb gs) None (pan st) Hl)
      as (Hn & Hl').
    pose proof (deliver_silent r st Hn Hl' Hinv) as Hinv'.
    destruct (deliver_fields r st) as (_ & _ & Hs' & _ & Hlg & _).
    split; [exact Hinv'|].
    split.
    + unfold emit; cbn [startBounds]. rewrite Hs', Hs.
      intros r0 H. apply Hsb. exact H.
    + apply reported_emit.
      * rewrite Hs', Hs. simpl.
        intros r0 [<- | [<- | []]].
        -- apply Hsb. reflexivity.
        -- rewrite (getBounds_reverseInv props _ Hinv').
           apply baseRectangle_atBase.
      * rewrite Hlg. exact Hlog.
  - destruct (isDragging st);
      [|intros H; injection H as <-; repeat split; assumption].
    intros H; injection H as <-.
    unfold onPanResponderRelease. rewrite Hrev. cbn [negb].
    assert (Hinv1 : reverseModeInv props
                      (reversePosition props (set_isDragging false st))).
    { split; [split; assumption|]. split; [exact Hsb|].
      apply reported_emit; [simpl; contradiction | exact Hlog]. }
    destruct (onDragRelease props); [|exact Hinv1].
    destruct Hinv1 as (Hinv1 & Hsb1 & Hlog1).
    split; [exact Hinv1|]. split; [exact Hsb1|].
    apply reported_emit; [simpl; contradiction|].
    apply reported_emit; [|exact Hlog1].
    cbn [reported].
    assert (Hcur : atBase props
              (getBounds props
                 (reversePosition props (set_isDragging false st)))).
    { rewrite (getBounds_reverseInv props _ Hinv1).
      apply baseRectangle_atBase. }
    destruct (startBounds (reversePosition props (set_isDragging false st)))
      as [r1|] eqn:Hs1.
    + intros r0 [<- | [<- | []]]; [apply Hsb1; reflexivity | exact Hcur].
    + intros r0 [<- | []]. exact Hcur.
  - intros H; injection H as <-. split; [exact Hinv|]. split; [exact Hsb|].
    apply reported_emit; [simpl; contradiction | exact Hlog].
  - intros H; injection H as <-. unfold handlePressOut. cbv zeta.
    assert (H1 : reverseModeInv props (emit (OnPressOut e) st)).
    { split; [exact Hinv|]. split; [exact Hsb|].
      apply reported_emit; [simpl; contradiction | exact Hlog]. }
    destruct (negb (isDragging (emit (OnPressOut e) st))); [|exact H1].
    destruct H1 as (A & B & C). split; [exact A|]. split; [exact B|].
    apply reported_emit; [simpl; contradiction | exact C].
  - intros H; injection H as <-. split; [exact Hinv|]. split; [exact Hsb|].
    apply reported_emit; [simpl; contradiction | exact Hlog].
  - intros H; injection H as <-. split; [exact Hinv|]. split; [exact Hsb|].
    apply reported_emit; [simpl; contradiction | exact Hlog].
  - intros H; injection H as <-.
    destruct offset as [target|]; [|repeat split; assumption].
    split; [split; assumption|]. split; [exact Hsb|].
    apply reported_emit; [simpl; contradiction | exact Hlog].
  - intros H; injection H as <-.
    destruct (frame_silent p (pan st) Hl) as (Hn & Hl').
    pose proof (deliver_silent _ st Hn Hl' Hinv) as Hinv'.
    destruct (deliver_fields (Animated.frame p (pan st)) st)
      as (_ & _ & Hs' & _ & Hlg & _).
    split; [exact Hinv'|]. rewrite Hs', Hlg. split; assumption.
  - intros H; injection H as <-.
    destruct (settle_silent (pan st) Hl) as (Hn & Hl').
    pose proof (deliver_silent _ st Hn Hl' Hinv) as Hinv'.
    destruct (deliver_fields (Animated.settle (pan st)) st)
      as (_ & _ & Hs' & _ & Hlg & _).
    assert (H1 : reverseModeInv props
                   (deliver (Animated.settle (pan st)) st)).
    { split; [exact Hinv'|]. rewrite Hs', Hlg. split; assumption. }
    unfold springSettle.
    destruct (Animated.animation (pan st)) as [cfg|]; [|exact H1].
    destruct (Animated.onSettled cfg); [|exact H1].
    destruct H1 as (A & B & C). split; [exact A|]. split; [exact B|].
    apply reported_emit; [simpl; contradiction | exact C].
Qed.

Lemma run_reverseModeInv (props : Props) (inputs : list Input)
  (st st' : State) :
  shouldReverse props = true ->
  reverseModeInv props st ->
  run props inputs st = Some st' ->
  reverseModeInv props st'.
Proof.
  intros Hrev. revert st.
  induction inputs as [|i inputs IH]; intros st Hinv; simpl.
  - intros H; injection H as <-. exact Hinv.
  - destruct (dispatch props i st) as [st1|] eqn:Hd; [|discriminate].
    apply IH. eapply dispatch_reverseModeInv; eauto.
Qed.

(** C10: in reversal mode the mount registers no listener, and after any
    sequence of inputs the listener is still absent and the mirror of the
    accumulated offset is the origin.  So the bounds query answers the base
    rectangle with the measured size; that is the start rectangle a grant
    stores and the current rectangle a move or a release reports, and every
    rectangle stored or reported so far sits at the base position. *)
Theorem reverse_mode_reports_base (props : Props) (inputs : list Input) :
  shouldReverse props = true ->
  Animated.listening (pan (mounted props)) = false
  /\ exists st,
       run props inputs (mounted props) = Some st
       /\ Animated.listening (pan st) = false
       /\ offsetFromStart st = origin
       /\ getBounds props st = baseRectangle props (childSize st)
       /\ (forall e gs,
             startBounds (onPanResponderGrant props e gs st)
             = Some (baseRectangle props (childSize st)))
       /\ (forall e gs st',
             handleOnDrag props e gs st = Some st' ->
             log st' = log st ++ [OnDrag e gs (startBounds st)
                                    (baseRectangle props (childSize st))])
       /\ (onDragRelease props = true ->
           forall e gs, exists cfg,
             log (onPanResponderRelease props e gs st)
             = log st ++ [SpringStart cfg;
                          OnDragRelease e gs (startBounds st)
                            (baseRectangle props (childSize st));
                          OnRelease e true])
       /\ (forall r, startBounds st = Some r -> atBase props r)
       /\ (forall eff r, In eff (log st) -> In r (reported eff) ->
             atBase props r).
Proof.
  intros Hrev.
  split.
  { destruct (mounted_fields props) as (_ & _ & _ & _ & _ & _ & Hl).
    rewrite Hl, Hrev. reflexivity. }
  destruct (run_total props inputs) as [st Hrun].
  pose proof (run_reverseModeInv props inputs _ _ Hrev
                (mounted_reverseModeInv props Hrev) Hrun)
    as (Hinv & Hsb & Hlog).
  pose proof Hinv as [Hl Ho].
  exists st. split; [exact Hrun|].
  split; [exact Hl|]. split; [exact Ho|].
  split; [apply getBounds_reverseInv; exact Hinv|].
  split.
  { intros e gs. destruct (grant_fields props e gs st) as (_ & Hs & _).
    rewrite Hs, (getBounds_reverseInv props st Hinv). reflexivity. }
  split.
  { intros e gs st'. unfold handleOnDrag.
    destruct (startBounds st) as [sb|] eqn:Hs; [|discriminate].
    cbv zeta. intros H; injection H as <-.
    destruct (write_silent (dragChange props sb gs) None (pan st) Hl)
      as (Hn & Hl').
    pose proof (deliver_silent
                  (Animated.setValue (dragChange props sb gs) (pan st))
                  st Hn Hl' Hinv) as Hinv'.
    destruct (deliver_fields
                (Animated.setValue (dragChange props sb gs) (pan st)) st)
      as (_ & Hc & Hs' & _ & Hlg & _).
    rewrite (getBounds_reverseInv props _ Hinv').
    unfold emit; cbn [log]. rewrite Hlg, Hs', Hs, Hc. reflexivity. }
  split.
  { intros Hdr e gs. unfold onPanResponderRelease.
    rewrite Hrev, Hdr. cbn [negb].
    assert (Hinv1 : reverseInv
                      (reversePosition props (set_isDragging false st)))
      by (split; assumption).
    rewrite (getBounds_reverseInv props _ Hinv1).
    eexists. simpl. rewrite <- !app_assoc. reflexivity. }
  split; assumption.
Qed.

Lemma reverse_mode_reports_base_witness :
  let props := mkProps true None false true false 36 5 7
                 Undefined Undefined Undefined Undefined in
  exists st,
    run props (Layout 40 20 :: drag 0%nat (mkGesture 3 0)
                 [mkGesture 30 30; mkGesture 250 (-90)] (mkGesture 250 (-90)))
      (mounted props) = Some st
    /\ offsetFromStart st = origin
    /\ getBounds props st = mkRectangle 5 7 45 27.
Proof.
  cbv zeta.
  destruct (reverse_mode_reports_base
    (mkProps true None false true false 36 5 7
       Undefined Undefined Undefined Undefined)
    (Layout 40 20 :: drag 0%nat (mkGesture 3 0)
       [mkGesture 30 30; mkGesture 250 (-90)] (mkGesture 250 (-90)))
    eq_refl)
    as (_ & st & Hrun & _ & Ho & Hb & _).
  exists st. split; [exact Hrun|]. split; [exact Ho|].
  rewrite Hb. revert Hrun. cbv. intros H; injection H as <-. reflexivity.
Defined.

(** ** Commit mode *)

Lemma getBounds_currentRectangle (props : Props) (st : State) :
  getBounds props st
  = currentRectangle (Position.mk (x props) (y props))
      (offsetFromStart st) (childSize st).
Proof. reflexivity. Qed.

(** The grant re-bases the animated value on the accumulated offset and
    resets the delta, leaving the mirror where it was. *)
Lemma grant_commit (props : Props) (e : Event) (gs : GestureState)
  (st : State) :
  shouldReverse props = false ->
  Animated.listening (pan st) = true ->
  draggingFrom (getBounds props st) (offsetFromStart st) (childSize st)
    (onPanResponderGrant props e gs st)
  /\ offsetFromStart (onPanResponderGrant props e gs st) = offsetFromStart st
  /\ Animated.value (pan (onPanResponderGrant props e gs st)) = origin
  /\ log (onPanResponderGrant props e gs st) = log st.
Proof.
  intros Hrev Hl. unfold onPanResponderGrant. rewrite Hrev. cbv zeta.
  cbn [negb]. rewrite deliver_setValue. simpl. rewrite Hl.
  unfold draggingFrom; simpl.
  rewrite add_origin_l. auto 10.
Qed.

(** The moves of a drag keep the session, the base and the listener. *)
Lemma moves_commit (props : Props) (e : Event) (moves : list GestureState)
  (sb : Rectangle) (base sz : Position) (st : State) :
  draggingFrom sb base sz st ->
  exists st',
    run props (map (PanMove e) moves) st = Some st'
    /\ draggingFrom sb base sz st'.
Proof.
  revert st. induction moves as [|gs moves IH]; intros st Hd; simpl.
  - eauto.
  - pose proof Hd as (Hdr & Hs & Ho & Hl & Hc).
    rewrite Hdr. unfold handleOnDrag. rewrite Hs. cbv zeta.
    rewrite deliver_setValue. apply IH.
    unfold draggingFrom; simpl. auto.
Qed.

(** The release folds the delta into the base: what the animated value
    shows and what the mirror holds do not move. *)
Lemma release_commit (props : Props) (e : Event) (gs : GestureState)
  (st : State) :
  shouldReverse props = false ->
  let st' := onPanResponderRelease props e gs st in
  isDragging st' = false
  /\ offsetFromStart st' = offsetFromStart st
  /\ childSize st' = childSize st
  /\ Animated.getValue (pan st') = Animated.getValue (pan st)
  /\ Animated.listening (pan st') = Animated.listening (pan st).
Proof.
  intros Hrev. unfold onPanResponderRelease. rewrite Hrev. cbn [negb].
  destruct (onDragRelease props); simpl; rewrite flattenOffset_getValue;
    auto.
Qed.

(** * Further properties of the code *)

(** ** [clamp] and the clamped change *)

(** X1: with the bounds in order the result of [clamp] lies between them,
    and it is the number itself exactly when the number already does. *)
Theorem clamp_in_range (number min max : Z) :
  min <= max ->
  min <= clamp number min max <= max
  /\ (clamp number min max = number <-> min <= number <= max).
Proof. unfold clamp. lia. Qed.

Lemma clamp_in_range_witness :
  (-4 <= clamp 80 (-4) 64 <= 64)
  /\ (clamp 80 (-4) 64 = 80 <-> -4 <= 80 <= 64).
Proof. apply (clamp_in_range 80 (-4) 64). lia. Defined.

(** X2: with the bounds out of order [clamp] answers the lower bound,
    whatever the number. *)
Theorem clamp_crossed_bounds (number min max : Z) :
  max < min -> clamp number min max = min.
Proof. unfold clamp. lia. Qed.

Lemma clamp_crossed_bounds_witness : clamp 5 0 (-26) = 0.
Proof. apply (clamp_crossed_bounds 5 0 (-26)). lia. Defined.

(** X3: clamping twice is clamping once, and [clamp] keeps the order of
    the numbers it is given, whatever the bounds. *)
Theorem clamp_idempotent_monotone (n m min max : Z) :
  clamp (clamp n min max) min max = clamp n min max
  /\ (n <= m -> clamp n min max <= clamp m min max).
Proof. unfold clamp. lia. Qed.

Lemma clamp_idempotent_monotone_witness :
  clamp 3 0 10 <= clamp 30 0 10.
Proof. apply (clamp_idempotent_monotone 3 30 0 10). lia. Defined.

(** X5: a change that came out of the clamp passes through it unchanged:
    feeding it back as the gesture gives the same change. *)
Theorem dragChange_idempotent (props : Props) (sb : Rectangle)
  (gs : GestureState) :
  let c := dragChange props sb gs in
  dragChange props sb (mkGesture (Position.x c) (Position.y c)) = c.
Proof.
  unfold dragChange; simpl. f_equal; unfold clamp; lia.
Qed.

(** ** Commit mode: the mirror and the animated value *)

Lemma commitInv_write (p : Position) (anim : option Animated.SpringConfig)
  (st : State) :
  commitInv st -> commitInv (deliver (Animated.write p anim (pan st)) st).
Proof.
  intros [Hl _]. rewrite deliver_write, Hl. split; reflexivity.
Qed.

Lemma commitInv_emit (eff : Effect) (st : State) :
  commitInv st -> commitInv (emit eff st).
Proof. intros H. exact H. Qed.

Lemma commitInv_settle (st : State) :
  commitInv st -> commitInv (deliver (Animated.settle (pan st)) st).
Proof.
  intros H. unfold Animated.settle.
  destruct (Animated.animation (pan st)) as [cfg|]; [|exact H].
  destruct (Animated.toValue cfg); apply commitInv_write; exact H.
Qed.

(** In commit mode every input keeps the mirror equal to what the animated
    value shows. *)
Lemma dispatch_commitInv (props : Props) (i : Input) (st st' : State) :
  shouldReverse props = false ->
  commitInv st -> dispatch props i st = Some st' -> commitInv st'.
Proof.
  intros Hrev Hinv. pose proof Hinv as [Hl Ho].
  destruct i; simpl.
  - intros H; injection H as <-. exact Hinv.
  - destruct (isDragging st); [intros H; injection H as <-; exact Hinv|].
    destruct (shouldStartDrag props gs); intros H; injection H as <-;
      [|exact Hinv].
    destruct (grant_commit props e gs st Hrev Hl)
      as ((_ & _ & Hb & Hl' & _) & Ho' & Hv & _).
    split; [exact Hl'|].
    unfold Animated.getValue. rewrite Ho', Hv, Hb.
    symmetry; apply add_origin_l.
  - destruct (isDragging st); [|intros H; injection H as <-; exact Hinv].
    unfold handleOnDrag. destruct (startBounds st) as [sb|]; [|discriminate].
    cbv zeta. intros H; injection H as <-.
    apply commitInv_emit. apply (commitInv_write _ None). exact Hinv.
  - destruct (isDragging st); intros H; injection H as <-; [|exact Hinv].
    destruct (release_commit props e gs st Hrev) as (_ & Ho' & _ & Hv & Hl').
    split; [rewrite Hl'; exact Hl | rewrite Ho', Hv; exact Ho].
  - intros H; injection H as <-. exact Hinv.
  - intros H; injection H as <-. unfold handlePressOut. cbv zeta.
    destruct (negb (isDragging (emit (OnPressOut e) st))); exact Hinv.
  - intros H; injection H as <-. exact Hinv.
  - intros H; injection H as <-. exact Hinv.
  - intros H; injection H as <-. destruct offset; exact Hinv.
  - intros H; injection H as <-. unfold Animated.frame.
    destruct (Animated.animation (pan st)); [|exact Hinv].
    apply commitInv_write; exact Hinv.
  - intros H; injection H as <-. unfold springSettle.
    pose proof (commitInv_settle st Hinv) as H1.
    destruct (Animated.animation (pan st)) as [cfg|]; [|exact H1].
    destruct (Animated.onSettled cfg); exact H1.
Qed.

Lemma run_commitInv (props : Props) (inputs : list Input) (st st' : State) :
  shouldReverse props = false ->
  commitInv st -> run props inputs st = Some st' -> commitInv st'.
Proof.
  intros Hrev. revert st.
  induction inputs as [|i inputs IH]; intros st Hinv; simpl.
  - intros H; injection H as <-. exact Hinv.
  - destruct (dispatch props i st) as [st1|] eqn:Hd; [|discriminate].
    apply IH. eapply dispatch_commitInv; eauto.
Qed.

Lemma mounted_commitInv (props : Props) :
  shouldReverse props = false -> commitInv (mounted props).
Proof.
  intros Hrev.
  destruct (mounted_fields props) as (_ & _ & Ho & _ & Hv & Hb & Hl).
  split; [rewrite Hl, Hrev; reflexivity|].
  unfold Animated.getValue. rewrite Ho, Hv, Hb. reflexivity.
Qed.

(** X7: with reversal disabled, after any sequence of inputs (gestures,
    layouts, [animateTo], spring frames) the listener is attached and
    [offsetFromStart] is what the animated value shows, so the rectangle
    [getBounds] answers is the rectangle the element is drawn at. *)
Theorem commit_mode_mirror (props : Props) (inputs : list Input) :
  shouldReverse props = false ->
  exists st,
    run props inputs (mounted props) = Some st
    /\ Animated.listening (pan st) = true
    /\ offsetFromStart st = Animated.getValue (pan st)
    /\ getBounds props st = visibleRectangle props st.
Proof.
  intros Hrev. destruct (run_total props inputs) as [st Hrun].
  destruct (run_commitInv props inputs _ _ Hrev
              (mounted_commitInv props Hrev) Hrun) as [Hl Ho].
  exists st. repeat split; try assumption.
  unfold visibleRectangle, getLayout. rewrite <- Ho. reflexivity.
Qed.

Lemma commit_mode_mirror_witness :
  let props := mkProps false None false true false 36 3 4
                 Undefined Undefined (Number (Finite 100)) Undefined in
  exists st,
    run props [CallAnimateTo (Some (Position.mk 50 50)) true;
               SpringFrame (Position.mk 20 25);
               MoveShouldSet 0%nat (mkGesture 3 0);
               PanMove 0%nat (mkGesture 70 1)] (mounted props) = Some st
    /\ getBounds props st = visibleRectangle props st.
Proof.
  cbv zeta.
  destruct (commit_mode_mirror
    (mkProps false None false true false 36 3 4
       Undefined Undefined (Number (Finite 100)) Undefined)
    [CallAnimateTo (Some (Position.mk 50 50)) true;
     SpringFrame (Position.mk 20 25);
     MoveShouldSet 0%nat (mkGesture 3 0);
     PanMove 0%nat (mkGesture 70 1)] eq_refl)
    as (st & Hrun & _ & _ & Hb).
  exists st. split; [exact Hrun | exact Hb].
Defined.

(** X8: a grant does not move the element.  After any sequence of inputs,
    in either mode, the rectangle the element is drawn at is the same
    before and after [onPanResponderGrant]; with reversal disabled the
    animated value is re-based, its delta at the origin. *)
Theorem grant_does_not_move (props : Props) (inputs : list Input) :
  exists st,
    run props inputs (mounted props) = Some st
    /\ forall e gs,
         visibleRectangle props (onPanResponderGrant props e gs st)
         = visibleRectangle props st
         /\ (shouldReverse props = false ->
             Animated.value (pan (onPanResponderGrant props e gs st)) = origin
             /\ Animated.offset (pan (onPanResponderGrant props e gs st))
                = Animated.getValue (pan st)).
Proof.
  destruct (run_total props inputs) as [st Hrun].
  exists st. split; [exact Hrun|]. intros e gs.
  destruct (shouldReverse props) eqn:Hrev.
  - split; [|discriminate].
    unfold onPanResponderGrant. rewrite Hrev. reflexivity.
  - destruct (run_commitInv props inputs _ _ Hrev
                (mounted_commitInv props Hrev) Hrun) as [Hl Ho].
    destruct (grant_commit props e gs st Hrev Hl)
      as ((_ & _ & Hb & _ & Hc) & _ & Hv & _).
    assert (Hg : Animated.getValue (pan (onPanResponderGrant props e gs st))
                 = Animated.getValue (pan st)).
    { unfold Animated.getValue at 1. rewrite Hv, Hb, add_origin_l. exact Ho. }
    split.
    + unfold visibleRectangle, getLayout. rewrite Hg, Hc. reflexivity.
    + intros _. split; [exact Hv | rewrite Hb; exact Ho].
Qed.

Lemma grant_does_not_move_witness :
  let props := mkProps false None false true false 36 0 0
                 Undefined Undefined Undefined Undefined in
  exists st,
    run props (drag 0%nat (mkGesture 3 0) [mkGesture 12 7] (mkGesture 12 7))
      (mounted props) = Some st
    /\ Animated.offset (pan (onPanResponderGrant props 1%nat (mkGesture 0 4) st))
       = Animated.getValue (pan st).
Proof.
  cbv zeta.
  destruct (grant_does_not_move
    (mkProps false None false true false 36 0 0
       Undefined Undefined Undefined Undefined)
    (drag 0%nat (mkGesture 3 0) [mkGesture 12 7] (mkGesture 12 7)))
    as (st & Hrun & Hg).
  exists st. split; [exact Hrun|].
  destruct (Hg 1%nat (mkGesture 0 4)) as (_ & Hc).
  apply Hc. reflexivity.
Defined.

(** ** A whole drag with reversal disabled *)

Lemma last_cons (A : Type) (a : A) (l : list A) (d : A) :
  last (a :: l) d = last l a.
Proof.
  destruct l as [|b l]; [reflexivity|].
  change (last (b :: l) d = last (b :: l) a). apply last_cons_default.
Qed.

Lemma currentRectangle_add (b c base sz : Position) :
  currentRectangle b (Position.add c base) sz
  = translate (currentRectangle b base sz) c.
Proof.
  unfold currentRectangle, translate, Position.add; simpl. f_equal; lia.
Qed.

(** The moves of a drag: each is reported once, against the start
    rectangle, and the mirror follows the last one. *)
Lemma moves_commit_trace (props : Props) (e : Event)
  (moves : list GestureState) (sb : Rectangle) (base sz : Position) :
  sb = currentRectangle (Position.mk (x props) (y props)) base sz ->
  forall (st : State) (c0 : Position),
    draggingFrom sb base sz st ->
    offsetFromStart st = Position.add c0 base ->
    exists st',
      run props (map (PanMove e) moves) st = Some st'
      /\ draggingFrom sb base sz st'
      /\ offsetFromStart st'
         = Position.add (last (map (dragChange props sb) moves) c0) base
      /\ log st' = log st ++ dragReports props sb e moves.
Proof.
  intros Hsb. induction moves as [|gs moves IH]; intros st c0 Hd Ho.
  - exists st. simpl. rewrite app_nil_r. auto.
  - pose proof Hd as (Hdr & _ & _ & _ & Hc).
    assert (Hd' : draggingFrom sb base (childSize st) st)
      by (rewrite Hc; exact Hd).
    assert (Hsb' : sb = currentRectangle (Position.mk (x props) (y props))
                          base (childSize st))
      by (rewrite Hc; exact Hsb).
    destruct (handleOnDrag_reports_translate props e gs st sb base Hd' Hsb')
      as (st1 & Hrun1 & Hd1 & Ho1 & _ & _ & Hlog1).
    rewrite Hc in Hd1.
    destruct (IH st1 (dragChange props sb gs) Hd1 Ho1)
      as (st' & Hrun & Hd2 & Ho2 & Hlog2).
    exists st'. split.
    { cbn [map run dispatch]. rewrite Hdr, Hrun1. exact Hrun. }
    split; [exact Hd2|]. split.
    { cbn [map]. rewrite last_cons. exact Ho2. }
    rewrite Hlog2, Hlog1. unfold dragReports. cbn [map].
    rewrite <- app_assoc. reflexivity.
Qed.

(** A whole drag from an idle state with the listener attached. *)
Lemma drag_commit_full (props : Props) (e : Event) (gs0 : GestureState)
  (moves : list GestureState) (gsr : GestureState) (st : State) :
  shouldReverse props = false ->
  Animated.listening (pan st) = true ->
  isDragging st = false ->
  shouldStartDrag props gs0 = true ->
  exists st',
    run props (drag e gs0 moves gsr) st = Some st'
    /\ isDragging st' = false
    /\ Animated.listening (pan st') = true
    /\ childSize st' = childSize st
    /\ startBounds st' = Some (getBounds props st)
    /\ offsetFromStart st'
       = Position.add (lastChange props (getBounds props st) moves)
           (offsetFromStart st)
    /\ log st'
       = log st ++ dragReports props (getBounds props st) e moves
           ++ (if onDragRelease props
               then [OnDragRelease e gsr (Some (getBounds props st))
                       (translate (getBounds props st)
                          (lastChange props (getBounds props st) moves));
                     OnRelease e true]
               else []).
Proof.
  intros Hrev Hl Hidle Hstart.
  set (sb := getBounds props st).
  destruct (grant_commit props e gs0 st Hrev Hl) as (Hd1 & Ho1 & _ & Hlog1).
  fold sb in Hd1.
  set (st1 := onPanResponderGrant props e gs0 st) in *.
  assert (Hsb : sb = currentRectangle (Position.mk (x props) (y props))
                       (offsetFromStart st) (childSize st)) by reflexivity.
  assert (Ho1' : offsetFromStart st1 = Position.add origin (offsetFromStart st))
    by (rewrite add_origin_l; exact Ho1).
  destruct (moves_commit_trace props e moves sb _ _ Hsb st1 origin Hd1 Ho1')
    as (st2 & Hrun2 & Hd2 & Ho2 & Hlog2).
  destruct Hd2 as (Hdr2 & Hs2 & _ & Hl2 & Hc2).
  destruct (release_commit props e gsr st2 Hrev)
    as (Hd3 & Ho3 & Hc3 & _ & Hl3).
  destruct (release_fields props e gsr st2) as (_ & Hs3 & _).
  exists (onPanResponderRelease props e gsr st2).
  split.
  { unfold drag. cbn [run dispatch]. rewrite Hidle, Hstart. fold st1.
    rewrite run_app, Hrun2. cbn [run dispatch]. rewrite Hdr2. reflexivity. }
  split; [exact Hd3|]. split; [rewrite Hl3; exact Hl2|].
  split; [rewrite Hc3; exact Hc2|]. split; [rewrite Hs3; exact Hs2|].
  split; [rewrite Ho3; exact Ho2|].
  unfold onPanResponderRelease. rewrite Hrev. cbn [negb].
  assert (Hg : getBounds props
                 (set_pan (Animated.flattenOffset
                             (pan (set_isDragging false st2)))
                    (set_isDragging false st2))
               = translate sb (lastChange props sb moves)).
  { rewrite getBounds_currentRectangle. cbn [offsetFromStart childSize
      set_pan set_isDragging]. rewrite Ho2, Hc2.
    apply currentRectangle_add. }
  destruct (onDragRelease props).
  - rewrite Hg. unfold emit; cbn [log set_pan set_isDragging startBounds].
    rewrite Hlog2, Hlog1, Hs2. rewrite <- !app_assoc. reflexivity.
  - cbn [log set_pan set_isDragging]. rewrite Hlog2, Hlog1, app_nil_r.
    reflexivity.
Qed.





(** ** What the handlers write and report, input by input *)



Lemma releaseReport_is_dragEffect (eff : Effect) :
  isReleaseReport eff = true -> isDragEffect eff = true.
Proof. destruct eff; simpl; auto. Qed.

(** The effects one input adds: a drag callback only during a drag, a
    report of a release only when [onDragRelease] is set. *)
Lemma dispatch_log (props : Props) (i : Input) (st st' : State) :
  dispatch props i st = Some st' ->
  exists effs,
    log st' = log st ++ effs
    /\ (forall eff, In eff effs -> isDragEffect eff = true ->
          isDragging st = true)
    /\ (forall eff, In eff effs -> isReleaseReport eff = true ->
          onDragRelease props = true).
Proof.
  assert (Hnil : forall s, log s = log st ->
            exists effs, log s = log st ++ effs
              /\ (forall eff, In eff effs -> isDragEffect eff = true ->
                    isDragging st = true)
              /\ (forall eff, In eff effs -> isReleaseReport eff = true ->
                    onDragRelease props = true)).
  { intros s Hs. exists []. rewrite app_nil_r.
    split; [exact Hs|]. split; intros eff []. }
  assert (Hone : forall eff0 s, log s = log st ++ [eff0] ->
            isDragEffect eff0 = false ->
            exists effs, log s = log st ++ effs
              /\ (forall eff, In eff effs -> isDragEffect eff = true ->
                    isDragging st = true)
              /\ (forall eff, In eff effs -> isReleaseReport eff = true ->
                    onDragRelease props = true)).
  { intros eff0 s Hs Hf. exists [eff0]. split; [exact Hs|].
    split; intros eff [<- | []] H.
    - rewrite Hf in H; discriminate.
    - apply releaseReport_is_dragEffect in H.
      rewrite Hf in H; discriminate. }
  destruct i; simpl.
  - intros H; injection H as <-. apply Hnil. reflexivity.
  - destruct (isDragging st);
      [intros H; injection H as <-; apply Hnil; reflexivity|].
    destruct (shouldStartDrag props gs); intros H; injection H as <-;
      apply Hnil; [apply grant_fields | reflexivity].
  - destruct (isDragging st) eqn:Hd;
      [|intros H; injection H as <-; apply Hnil; reflexivity].
    unfold handleOnDrag. destruct (startBounds st) as [sb|]; [|discriminate].
    cbv zeta. intros H; injection H as <-.
    destruct (deliver_fields
                (Animated.setValue (dragChange props sb gs) (pan st)) st)
      as (_ & _ & _ & _ & Hlg & _).
    eexists. split; [unfold emit; cbn [log]; rewrite Hlg; reflexivity|].
    split; intros eff [<- | []] H; [reflexivity | discriminate H].
  - destruct (isDragging st) eqn:Hd;
      [|intros H; injection H as <-; apply Hnil; reflexivity].
    intros H; injection H as <-. unfold onPanResponderRelease.
    destruct (shouldReverse props), (onDragRelease props); cbn [negb].
    + eexists. split; [simpl; rewrite <- !app_assoc; reflexivity|].
      split; intros; reflexivity.
    + eexists. split; [simpl; reflexivity|].
      split; intros eff [<- | []] H; discriminate H.
    + eexists. split; [simpl; rewrite <- !app_assoc; reflexivity|].
      split; intros; reflexivity.
    + apply Hnil. reflexivity.
  - intros H; injection H as <-. eapply Hone; reflexivity.
  - intros H; injection H as <-. unfold handlePressOut. cbv zeta.
    destruct (negb (isDragging (emit (OnPressOut e) st))).
    + exists [OnPressOut e; OnRelease e false].
      split; [simpl; rewrite <- app_assoc; reflexivity|].
      split; intros eff [<- | [<- | []]] H; discriminate H.
    + eapply Hone; reflexivity.
  - intros H; injection H as <-. eapply Hone; reflexivity.
  - intros H; injection H as <-. eapply Hone; reflexivity.
  - intros H; injection H as <-.
    destruct offset; [eapply Hone; reflexivity | apply Hnil; reflexivity].
  - intros H; injection H as <-. apply Hnil. apply deliver_fields.
  - intros H; injection H as <-. unfold springSettle.
    destruct (deliver_fields (Animated.settle (pan st)) st)
      as (_ & _ & _ & _ & Hlg & _).
    destruct (Animated.animation (pan st)) as [cfg|]; [|apply Hnil; exact Hlg].
    destruct (Animated.onSettled cfg); [|apply Hnil; exact Hlg].
    eapply Hone; [simpl; rewrite Hlg; reflexivity | reflexivity].
Qed.

Lemma mounted_log (props : Props) (eff : Effect) :
  In eff (log (mounted props)) ->
  isDragEffect eff = false /\ isReleaseReport eff = false.
Proof.
  unfold mounted, useEffect.
  destruct (afterRender props), (negb (shouldReverse props)); simpl;
    intuition (subst; auto).
Qed.

(** X12: when [onDragRelease] is not set, no sequence of inputs ever makes
    the component report a release of a drag: neither [onDragRelease] nor
    [onRelease] with the flag true is fired. *)
Theorem no_release_report_without_callback (props : Props)
  (inputs : list Input) :
  onDragRelease props = false ->
  exists st,
    run props inputs (mounted props) = Some st
    /\ forall eff, In eff (log st) -> isReleaseReport eff = false.
Proof.
  intros Hno. destruct (run_total props inputs) as [st Hrun].
  exists st. split; [exact Hrun|].
  assert (H0 : forall eff, In eff (log (mounted props)) ->
                 isReleaseReport eff = false)
    by (intros eff H; apply (mounted_log props eff H)).
  revert Hrun H0. generalize (mounted props) as s0.
  induction inputs as [|i inputs IH]; intros s0; simpl.
  - intros H; injection H as <-. auto.
  - destruct (dispatch props i s0) as [s1|] eqn:Hd; [|discriminate].
    intros Hrun H0. apply (IH s1 Hrun).
    destruct (dispatch_log props i s0 s1 Hd) as (effs & Hlog & _ & Hrel).
    intros eff Hin. rewrite Hlog in Hin. apply in_app_or in Hin.
    destruct Hin as [Hin | Hin]; [auto|].
    destruct (isReleaseReport eff) eqn:Hr; [|reflexivity].
    rewrite (Hrel eff Hin Hr) in Hno. discriminate.
Qed.

Lemma no_release_report_without_callback_witness :
  let props := mkProps true None false false false 36 0 0
                 Undefined Undefined Undefined Undefined in
  exists st,
    run props (drag 0%nat (mkGesture 3 0) [mkGesture 9 9] (mkGesture 9 9))
      (mounted props) = Some st
    /\ ~ In (OnRelease 0%nat true) (log st).
Proof.
  cbv zeta.
  destruct (no_release_report_without_callback
    (mkProps true None false false false 36 0 0
       Undefined Undefined Undefined Undefined)
    (drag 0%nat (mkGesture 3 0) [mkGesture 9 9] (mkGesture 9 9)) eq_refl)
    as (st & Hrun & Hno).
  exists st. split; [exact Hrun|].
  intros Hin. specialize (Hno _ Hin). discriminate Hno.
Defined.

(** X13: a disabled component never starts a drag.  After any sequence of
    inputs it is idle, it has never taken a start rectangle, and it has
    fired none of [onDrag], [onDragRelease] and [onRelease] with the flag
    true. *)
Theorem disabled_never_drags (props : Props) (inputs : list Input) :
  disabled props = true ->
  exists st,
    run props inputs (mounted props) = Some st
    /\ isDragging st = false
    /\ startBounds st = None
    /\ forall eff, In eff (log st) -> isDragEffect eff = false.
Proof.
  intros Hdis. destruct (run_total props inputs) as [st Hrun].
  exists st. split; [exact Hrun|].
  destruct (mounted_fields props) as (Hd0 & Hs0 & _).
  assert (H0 : forall eff, In eff (log (mounted props)) ->
                 isDragEffect eff = false)
    by (intros eff H; apply (mounted_log props eff H)).
  revert Hrun Hd0 Hs0 H0. generalize (mounted props) as s0.
  induction inputs as [|i inputs IH]; intros s0; simpl.
  - intros H; injection H as <-. auto.
  - destruct (dispatch props i s0) as [s1|] eqn:Hd; [|discriminate].
    intros Hrun Hd0 Hs0 H0.
    assert (Hkeep : isDragging s1 = false /\ startBounds s1 = None).
    { destruct i; simpl in Hd; rewrite ?Hd0 in Hd;
        rewrite ?(shouldStartDrag_disabled props _ Hdis) in Hd;
        try (injection Hd as <-; split; assumption).
      - injection Hd as <-. unfold handlePressOut; simpl.
        destruct (negb (isDragging s0)); split; assumption.
      - injection Hd as <-. destruct offset; split; assumption.
      - injection Hd as <-.
        destruct (deliver_fields (Animated.frame p (pan s0)) s0)
          as (_ & _ & Hs & Hdr & _ & _).
        rewrite Hs, Hdr. split; assumption.
      - injection Hd as <-.
        destruct (springSettle_fields s0) as (Hdr & Hs & _).
        rewrite Hs, Hdr. split; assumption. }
    destruct Hkeep as [Hd1 Hs1].
    apply (IH s1 Hrun Hd1 Hs1).
    destruct (dispatch_log props i s0 s1 Hd) as (effs & Hlog & Hdrag & _).
    intros eff Hin. rewrite Hlog in Hin. apply in_app_or in Hin.
    destruct Hin as [Hin | Hin]; [auto|].
    destruct (isDragEffect eff) eqn:Hr; [|reflexivity].
    rewrite (Hdrag eff Hin Hr) in Hd0. discriminate.
Qed.

Lemma disabled_never_drags_witness :
  let props := mkProps false None true true false 36 0 0
                 Undefined Undefined Undefined Undefined in
  exists st,
    run props (drag 0%nat (mkGesture 300 0) [mkGesture 400 9] (mkGesture 400 9))
      (mounted props) = Some st
    /\ isDragging st = false /\ startBounds st = None.
Proof.
  cbv zeta.
  destruct (disabled_never_drags
    (mkProps false None true true false 36 0 0
       Undefined Undefined Undefined Undefined)
    (drag 0%nat (mkGesture 300 0) [mkGesture 400 9] (mkGesture 400 9))
    eq_refl)
    as (st & Hrun & Hd & Hs & _).
  exists st. auto.
Defined.

(** ** Without a listener *)

(** Once nothing listens, no input writes the mirror, and no input attaches
    a listener. *)
Lemma dispatch_silent_mirror (props : Props) (i : Input) (st st' : State) :
  Animated.listening (pan st) = false ->
  dispatch props i st = Some st' ->
  Animated.listening (pan st') = false
  /\ offsetFromStart st' = offsetFromStart st.
Proof.
  intros Hl.
  assert (Hw : forall p anim (s : State),
             Animated.listening (pan s) = false ->
             Animated.listening (pan (deliver (Animated.write p anim (pan s)) s))
             = false
             /\ offsetFromStart (deliver (Animated.write p anim (pan s)) s)
                = offsetFromStart s).
  { intros p anim s H. rewrite deliver_write, H. split; reflexivity. }
  destruct i; simpl.
  - intros H; injection H as <-. auto.
  - destruct (isDragging st); [intros H; injection H as <-; auto|].
    destruct (shouldStartDrag props gs); intros H; injection H as <-;
      [|auto].
    unfold onPanResponderGrant.
    destruct (negb (shouldReverse props)); [|auto].
    cbv zeta. rewrite deliver_setValue. simpl. rewrite Hl. auto.
  - destruct (isDragging st); [|intros H; injection H as <-; auto].
    unfold handleOnDrag. destruct (startBounds st) as [sb|]; [|discriminate].
    cbv zeta. intros H; injection H as <-.
    apply (Hw _ None st Hl).
  - destruct (isDragging st); intros H; injection H as <-; [|auto].
    unfold onPanResponderRelease.
    destruct (negb (shouldReverse props)), (onDragRelease props); simpl; auto.
  - intros H; injection H as <-. auto.
  - intros H; injection H as <-. unfold handlePressOut; simpl.
    destruct (negb (isDragging st)); auto.
  - intros H; injection H as <-. auto.
  - intros H; injection H as <-. auto.
  - intros H; injection H as <-. destruct offset; simpl; auto.
  - intros H; injection H as <-. unfold Animated.frame.
    destruct (Animated.animation (pan st)); [apply Hw; exact Hl | auto].
  - intros H; injection H as <-. unfold springSettle.
    assert (H1 : Animated.listening
                   (pan (deliver (Animated.settle (pan st)) st)) = false
                 /\ offsetFromStart (deliver (Animated.settle (pan st)) st)
                    = offsetFromStart st).
    { unfold Animated.settle.
      destruct (Animated.animation (pan st)) as [cfg|]; [|auto].
      destruct (Animated.toValue cfg); apply Hw; exact Hl. }
    destruct (Animated.animation (pan st)) as [cfg|]; [|exact H1].
    destruct (Animated.onSettled cfg); exact H1.
Qed.

Lemma run_silent_mirror (props : Props) (inputs : list Input)
  (st st' : State) :
  Animated.listening (pan st) = false ->
  run props inputs st = Some st' ->
  Animated.listening (pan st') = false
  /\ offsetFromStart st' = offsetFromStart st.
Proof.
  revert st. induction inputs as [|i inputs IH]; intros st Hl; simpl.
  - intros H; injection H as <-. auto.
  - destruct (dispatch props i st) as [st1|] eqn:Hd; [|discriminate].
    destruct (dispatch_silent_mirror props i st st1 Hl Hd) as [Hl1 Ho1].
    intros Hrun. destruct (IH st1 Hl1 Hrun) as [Hl' Ho'].
    split; [exact Hl' | rewrite Ho'; exact Ho1].
Qed.

(** X15: after the cleanup of the effect nothing writes [offsetFromStart]
    any more: whatever ran before the cleanup and whatever arrives after it
    (frames of a spring still in flight, [animateTo], gestures), the mirror
    keeps the value it had at the cleanup. *)
Theorem cleanup_freezes_mirror (props : Props) (before after : list Input) :
  exists st st',
    run props before (mounted props) = Some st
    /\ run props after (cleanup st) = Some st'
    /\ offsetFromStart st' = offsetFromStart st
    /\ Animated.listening (pan st') = false.
Proof.
  destruct (run_total props before) as [st Hrun].
  assert (Hinv : sessionInv (cleanup st)).
  { pose proof (run_sessionInv props before _ _
                  (mounted_sessionInv props) Hrun) as H.
    exact H. }
  destruct (run_total_from props after (cleanup st) Hinv) as [st' Hrun'].
  exists st, st'. split; [exact Hrun|]. split; [exact Hrun'|].
  destruct (run_silent_mirror props after (cleanup st) st' eq_refl Hrun')
    as [Hl Ho].
  split; [exact Ho | exact Hl].
Qed.

(** ** Reversal mode: what is drawn and what is reported *)

Lemma dispatch_reverse_offset (props : Props) (i : Input) (st st' : State) :
  shouldReverse props = true ->
  Animated.offset (pan st) = origin ->
  dispatch props i st = Some st' ->
  Animated.offset (pan st') = origin.
Proof.
  intros Hrev Hb.
  assert (Hw : forall r : Animated.ValueXY * list Position,
             Animated.offset (fst r) = origin ->
             Animated.offset (pan (deliver r st)) = origin).
  { intros r H. destruct (deliver_fields r st) as (Hp & _). now rewrite Hp. }
  destruct i; simpl.
  - intros H; injection H as <-. exact Hb.
  - destruct (isDragging st); [intros H; injection H as <-; exact Hb|].
    destruct (shouldStartDrag props gs); intros H; injection H as <-;
      [|exact Hb].
    unfold onPanResponderGrant. rewrite Hrev. exact Hb.
  - destruct (isDragging st); [|intros H; injection H as <-; exact Hb].
    unfold handleOnDrag. destruct (startBounds st) as [sb|]; [|discriminate].
    cbv zeta. intros H; injection H as <-.
    unfold emit; cbn [pan]. apply Hw. exact Hb.
  - destruct (isDragging st); intros H; injection H as <-; [|exact Hb].
    unfold onPanResponderRelease. rewrite Hrev. cbn [negb].
    destruct (onDragRelease props); exact Hb.
  - intros H; injection H as <-. exact Hb.
  - intros H; injection H as <-. unfold handlePressOut; simpl.
    destruct (negb (isDragging st)); exact Hb.
  - intros H; injection H as <-. exact Hb.
  - intros H; injection H as <-. exact Hb.
  - intros H; injection H as <-. destruct offset; exact Hb.
  - intros H; injection H as <-. apply Hw. unfold Animated.frame.
    destruct (Animated.animation (pan st)); exact Hb.
  - intros H; injection H as <-. unfold springSettle.
    assert (H1 : Animated.offset
                   (pan (deliver (Animated.settle (pan st)) st)) = origin).
    { apply Hw. unfold Animated.settle.
      destruct (Animated.animation (pan st)) as [cfg|]; [|exact Hb].
      destruct (Animated.toValue cfg); exact Hb. }
    destruct (Animated.animation (pan st)) as [cfg|]; [|exact H1].
    destruct (Animated.onSettled cfg); exact H1.
Qed.

Lemma run_reverse_offset (props : Props) (inputs : list Input)
  (st st' : State) :
  shouldReverse props = true ->
  Animated.offset (pan st) = origin ->
  run props inputs st = Some st' ->
  Animated.offset (pan st') = origin.
Proof.
  intros Hrev. revert st.
  induction inputs as [|i inputs IH]; intros st Hb; simpl.
  - intros H; injection H as <-. exact Hb.
  - destruct (dispatch props i st) as [st1|] eqn:Hd; [|discriminate].
    apply IH. eapply dispatch_reverse_offset; eauto.
Qed.

(** X14: with reversal enabled the animated value is never re-based, and a
    move of a drag draws the element at the base rectangle moved by the
    clamped change while [getBounds], and so the current rectangle handed
    to [onDrag], stays at the base rectangle: the report lags behind what
    is drawn by exactly the clamped change. *)
Theorem reverse_mode_drawn_versus_reported (props : Props)
  (inputs : list Input) :
  shouldReverse props = true ->
  exists st,
    run props inputs (mounted props) = Some st
    /\ Animated.offset (pan st) = origin
    /\ forall e gs sb st',
         startBounds st = Some sb ->
         handleOnDrag props e gs st = Some st' ->
         Animated.value (pan st') = dragChange props sb gs
         /\ visibleRectangle props st'
            = translate (baseRectangle props (childSize st))
                (dragChange props sb gs)
         /\ getBounds props st' = baseRectangle props (childSize st).
Proof.
  intros Hrev. destruct (run_total props inputs) as [st Hrun].
  destruct (mounted_fields props) as (_ & _ & _ & _ & _ & Hb0 & _).
  pose proof (run_reverse_offset props inputs _ _ Hrev Hb0 Hrun) as Hb.
  pose proof (run_reverseModeInv props inputs _ _ Hrev
                (mounted_reverseModeInv props Hrev) Hrun)
    as ((Hl & Ho) & _).
  exists st. split; [exact Hrun|]. split; [exact Hb|].
  intros e gs sb st' Hs. unfold handleOnDrag. rewrite Hs. cbv zeta.
  rewrite deliver_setValue, Hl. intros H; injection H as <-.
  split; [reflexivity|]. split.
  - unfold visibleRectangle, getLayout, Animated.getValue, baseRectangle.
    cbn [emit pan childSize Animated.value Animated.offset]. rewrite Hb.
    apply currentRectangle_add.
  - unfold getBounds, baseRectangle, currentRectangle.
    cbn [emit offsetFromStart childSize]. rewrite Ho. reflexivity.
Qed.

Lemma reverse_mode_drawn_versus_reported_witness :
  let props := mkProps true None false true false 36 5 7
                 Undefined Undefined (Number (Finite 100)) Undefined in
  exists st,
    run props [MoveShouldSet 0%nat (mkGesture 3 0)] (mounted props) = Some st
    /\ Animated.offset (pan st) = origin.
Proof.
  cbv zeta.
  destruct (reverse_mode_drawn_versus_reported
    (mkProps true None false true false 36 5 7
       Undefined Undefined (Number (Finite 100)) Undefined)
    [MoveShouldSet 0%nat (mkGesture 3 0)] eq_refl)
    as (st & Hrun & Hb & _).
  exists st. split; [exact Hrun | exact Hb].
Defined.

(** ** The debug overlay *)

Lemma getDebugView_unconstrained (props : Props) (width height : Z) :
  truthy (minX props) = false -> truthy (maxX props) = false ->
  truthy (minY props) = false -> truthy (maxY props) = false ->
  getDebugView props width height = None.
Proof.
  intros H1 H2 H3 H4. unfold getDebugView, jsOr.
  rewrite H1, H2, H3, H4. reflexivity.
Qed.

(** X16: [getDebugView] answers [null] exactly when each of the four bounds
    is falsy, that is undefined, zero or NaN. *)
Theorem getDebugView_null_iff (props : Props) (width height : Z) :
  getDebugView props width height = None
  <-> (truthy (minX props) = false /\ truthy (maxX props) = false
       /\ truthy (minY props) = false /\ truthy (maxY props) = false).
Proof.
  unfold getDebugView, jsOr.
  destruct (truthy (minX props)) eqn:H1, (truthy (maxX props)) eqn:H2,
    (truthy (minY props)) eqn:H3, (truthy (maxY props)) eqn:H4;
    cbn [negb]; rewrite ?H1, ?H2, ?H3, ?H4; cbn [negb];
    split; try discriminate; try (intros (? & ? & ? & ?); discriminate);
    auto.
Qed.

(** X17: a bound of zero is enforced by the drag and ignored by the debug
    overlay.  With [minX = 0] the left edge of a dragged rectangle never
    goes below zero, while the overlay, when there is one, puts its left
    side at the missing-bound value [-9999], and there is no overlay at all
    when the other three bounds are falsy. *)
Theorem zero_bound_enforced_not_shown (props : Props) (sb : Rectangle)
  (gs : GestureState) (width height : Z) :
  minX props = Number (Finite 0) ->
  0 <= left (translate sb (dragChange props sb gs))
  /\ (forall d, getDebugView props width height = Some d ->
        DebugStyle.left d = Number (Finite (-9999)))
  /\ (truthy (maxX props) = false -> truthy (minY props) = false ->
      truthy (maxY props) = false ->
      getDebugView props width height = None).
Proof.
  intros Hmin. split; [|split].
  - unfold translate, dragChange, clamp; simpl. rewrite Hmin; simpl. lia.
  - intros d. unfold getDebugView.
    destruct (negb _); [discriminate|].
    intros H; injection H as <-. simpl. rewrite Hmin. reflexivity.
  - intros H2 H3 H4. apply getDebugView_unconstrained; auto.
    rewrite Hmin. reflexivity.
Qed.

Lemma zero_bound_enforced_not_shown_witness :
  let props := mkProps false None false true false 36 0 0
                 (Number (Finite 0)) Undefined (Number (Finite 100))
                 Undefined in
  0 <= left (translate (mkRectangle 0 0 36 36)
               (dragChange props (mkRectangle 0 0 36 36) (mkGesture (-50) 0)))
  /\ exists d, getDebugView props 400 800 = Some d
       /\ DebugStyle.left d = Number (Finite (-9999)).
Proof.
  cbv zeta.
  destruct (zero_bound_enforced_not_shown
    (mkProps false None false true false 36 0 0
       (Number (Finite 0)) Undefined (Number (Finite 100)) Undefined)
    (mkRectangle 0 0 36 36) (mkGesture (-50) 0) 400 800 eq_refl)
    as (Hleft & Hshown & _).
  split; [exact Hleft|].
  eexists. split; [reflexivity|]. apply Hshown. reflexivity.
Defined.

(** ** Rendering *)



(** X20: the pan responder reaches the rendered tree unless a drag handle
    is given without children: without a handle it is spread on the
    animated view, with a handle and children it is handed to the handle,
    and with a handle and no children it is wired nowhere.  The press
    handlers are attached exactly when there is no drag handle. *)
Theorem pan_responder_wiring (props : Props) (rp : RenderProps)
  (width height : Z) :
  let r := render props rp width height in
  (panResponderWired r = false
   <-> dragHandle rp = true /\ children rp = None)
  /\ touchable r = negb (dragHandle rp)
  /\ panHandlersOnView r = negb (dragHandle rp).
Proof.
  unfold render, panResponderWired, touchableContent.
  destruct (dragHandle rp); simpl.
  - destruct (children rp) as [c|]; simpl.
    + repeat split; try discriminate. intros [_ H]; discriminate H.
    + destruct (imageSource rp) as [src|];
        [destruct (truthyNumber (Some src))|]; simpl; repeat split.
  - repeat split; try discriminate. intros [H _]; discriminate H.
Qed.

(** ** The commit-in-place law *)

Lemma handleOnDrag_pan (props : Props) (e : Event) (gs : GestureState)
  (st st' : State) :
  handleOnDrag props e gs st = Some st' ->
  Animated.animation (pan st') = None
  /\ Animated.offset (pan st') = Animated.offset (pan st).
Proof.
  unfold handleOnDrag. destruct (startBounds st) as [sb|]; [|discriminate].
  cbv zeta. rewrite deliver_setValue. intros H; injection H as <-.
  split; reflexivity.
Qed.

(** The moves of a drag leave no spring in flight and keep the base. *)
Lemma moves_pan (props : Props) (e : Event) (moves : list GestureState) :
  forall st st' : State,
    isDragging st = true ->
    Animated.animation (pan st) = None ->
    run props (map (PanMove e) moves) st = Some st' ->
    isDragging st' = true /\ Animated.animation (pan st') = None.
Proof.
  induction moves as [|gs moves IH]; intros st st' Hd Ha; simpl.
  - intros H; injection H as <-. auto.
  - rewrite Hd.
    destruct (handleOnDrag props e gs st) as [st1|] eqn:H1; [|discriminate].
    destruct (handleOnDrag_pan props e gs st st1 H1) as (Ha1 & _).
    destruct (drag_fields props e gs st st1 H1) as (Hd1 & _).
    apply IH; [rewrite Hd1; exact Hd | exact Ha1].
Qed.

(** After a whole drag with reversal disabled the animated value is flat:
    zero delta, no spring in flight, and the base at the mirror. *)
Lemma drag_commit_pan (props : Props) (e : Event) (gs0 : GestureState)
  (moves : list GestureState) (gsr : GestureState) (st st' : State) :
  shouldReverse props = false ->
  commitInv st ->
  isDragging st = false ->
  shouldStartDrag props gs0 = true ->
  run props (drag e gs0 moves gsr) st = Some st' ->
  Animated.value (pan st') = origin
  /\ Animated.animation (pan st') = None
  /\ Animated.offset (pan st') = offsetFromStart st'.
Proof.
  intros Hrev Hinv Hidle Hstart Hrun.
  pose proof (run_commitInv props _ _ _ Hrev Hinv Hrun) as [_ Hm].
  assert (Hva : Animated.value (pan st') = origin
                /\ Animated.animation (pan st') = None).
  { revert Hrun. unfold drag. cbn [run dispatch]. rewrite Hidle, Hstart.
    rewrite run_app.
    destruct (run props (map (PanMove e) moves)
                (onPanResponderGrant props e gs0 st)) as [st2|] eqn:H2;
      [|discriminate].
    assert (Hg : isDragging (onPanResponderGrant props e gs0 st) = true
                 /\ Animated.animation
                      (pan (onPanResponderGrant props e gs0 st)) = None).
    { split; [apply grant_fields|].
      unfold onPanResponderGrant. rewrite Hrev. cbv zeta. cbn [negb].
      rewrite deliver_setValue. reflexivity. }
    destruct Hg as [Hg1 Hg2].
    destruct (moves_pan props e moves _ _ Hg1 Hg2 H2) as [Hd2 Ha2].
    cbn [run dispatch]. rewrite Hd2. intros H; injection H as <-.
    unfold onPanResponderRelease. rewrite Hrev. cbn [negb].
    destruct (onDragRelease props); simpl; auto. }
  destruct Hva as [Hv Ha]. split; [exact Hv|]. split; [exact Ha|].
  rewrite Hm. unfold Animated.getValue. rewrite Hv. symmetry.
  apply add_origin_l.
Qed.

(** With no spring in flight, presses and the passing of time change
    nothing but the log. *)
Lemma run_passive (props : Props) (later : list Input) :
  forall st : State,
    Animated.animation (pan st) = None ->
    forallb isPassiveInput later = true ->
    exists st2,
      run props later st = Some st2
      /\ pan st2 = pan st
      /\ offsetFromStart st2 = offsetFromStart st
      /\ childSize st2 = childSize st
      /\ isDragging st2 = isDragging st
      /\ startBounds st2 = startBounds st.
Proof.
  induction later as [|i later IH]; intros st Ha Hall.
  - exists st. simpl. auto 10.
  - simpl in Hall. apply andb_prop in Hall. destruct Hall as [Hi Hrest].
    assert (Hstep : exists st1,
               dispatch props i st = Some st1
               /\ pan st1 = pan st
               /\ offsetFromStart st1 = offsetFromStart st
               /\ childSize st1 = childSize st
               /\ isDragging st1 = isDragging st
               /\ startBounds st1 = startBounds st).
    { destruct i; try discriminate Hi; simpl.
      - eexists; split; [reflexivity|]. auto 10.
      - eexists; split; [reflexivity|]. unfold handlePressOut; simpl.
        destruct (negb (isDragging st)); auto 10.
      - eexists; split; [reflexivity|]. auto 10.
      - eexists; split; [reflexivity|]. auto 10.
      - eexists; split; [reflexivity|]. unfold Animated.frame.
        rewrite Ha. simpl. auto 10.
      - eexists; split; [reflexivity|]. unfold springSettle, Animated.settle.
        rewrite Ha. simpl. auto 10. }
    destruct Hstep as (st1 & H1 & Hp & Ho & Hc & Hd & Hs).
    destruct (IH st1) as (st2 & H2 & Hp2 & Ho2 & Hc2 & Hd2 & Hs2);
      [rewrite Hp; exact Ha | exact Hrest |].
    exists st2. simpl. rewrite H1. split; [exact H2|].
    rewrite Hp2, Ho2, Hc2, Hd2, Hs2. auto 10.
Qed.

(** C4: reversal disabled, base [{0,0}], a drag whose last move is clamped
    to [{10,-5}], then the release.  The release folds the offset into the
    base: the animated value has base [{10,-5}], delta [{0,0}] and no
    spring in flight, and it reports the rectangle at [{10,-5}].  The
    bounds query answers the rectangle of base [{10,-5}] with offset
    [{0,0}], and keeps answering it through later presses and the passing
    of time; the next grant starts from that base with a zero delta. *)
Theorem commit_in_place (props : Props) (width height : Z) (e : Event)
  (gs0 : GestureState) (moves : list GestureState) (gs gsr : GestureState) :
  shouldReverse props = false ->
  x props = 0 -> y props = 0 ->
  shouldStartDrag props gs0 = true ->
  let st0 := handleOnLayout width height (mounted props) in
  dragChange props (getBounds props st0) gs = Position.mk 10 (-5) ->
  exists st,
    run props (drag e gs0 (moves ++ [gs]) gsr) st0 = Some st
    /\ isDragging st = false
    /\ getBounds props st
       = currentRectangle (Position.mk 10 (-5)) origin
           (Position.mk width height)
    /\ offsetFromStart st = Position.mk 10 (-5)
    /\ Animated.getValue (pan st) = Position.mk 10 (-5)
    /\ Animated.offset (pan st) = Position.mk 10 (-5)
    /\ Animated.value (pan st) = origin
    /\ Animated.animation (pan st) = None
    /\ (onDragRelease props = true ->
        exists before,
          log st
          = before
              ++ [OnDragRelease e gsr
                    (Some (mkRectangle 0 0 width height))
                    (currentRectangle (Position.mk 10 (-5)) origin
                       (Position.mk width height));
                  OnRelease e true])
    /\ (forall later,
          forallb isPassiveInput later = true ->
          exists st2,
            run props later st = Some st2
            /\ getBounds props st2
               = currentRectangle (Position.mk 10 (-5)) origin
                   (Position.mk width height)
            /\ Animated.offset (pan st2) = Position.mk 10 (-5)
            /\ Animated.value (pan st2) = origin)
    /\ (forall e' gs',
          let st' := onPanResponderGrant props e' gs' st in
          startBounds st'
          = Some (currentRectangle (Position.mk 10 (-5)) origin
                    (Position.mk width height))
          /\ Animated.offset (pan st') = Position.mk 10 (-5)
          /\ Animated.value (pan st') = origin).
Proof.
  intros Hrev Hx Hy Hstart st0 Hchange.
  destruct (mounted_fields props) as (Hd0 & _ & Ho0 & _ & _ & _ & Hl0).
  rewrite Hrev in Hl0. simpl in Hl0.
  assert (Hinv0 : commitInv st0) by (apply (mounted_commitInv props Hrev)).
  assert (Hst0 : isDragging st0 = false /\ offsetFromStart st0 = origin
                 /\ childSize st0 = Position.mk width height
                 /\ Animated.listening (pan st0) = true).
  { unfold st0, handleOnLayout; simpl. auto. }
  destruct Hst0 as (Hd & Ho & Hc & Hl).
  assert (Hsb : getBounds props st0 = mkRectangle 0 0 width height).
  { unfold getBounds. rewrite Ho, Hc, Hx, Hy. reflexivity. }
  destruct (drag_commit_full props e gs0 (moves ++ [gs]) gsr st0
              Hrev Hl Hd Hstart)
    as (st & Hrun & Hd' & Hl' & Hc' & _ & Ho' & Hlog).
  assert (Hlast : lastChange props (getBounds props st0) (moves ++ [gs])
                  = Position.mk 10 (-5)).
  { unfold lastChange. rewrite map_app. cbn [map]. rewrite last_last.
    exact Hchange. }
  rewrite Hlast, Ho, add_origin_r in Ho'.
  rewrite Hlast in Hlog.
  destruct (drag_commit_pan props e gs0 (moves ++ [gs]) gsr st0 st
              Hrev Hinv0 Hd Hstart Hrun) as (Hv & Ha & Hb).
  rewrite Ho' in Hb.
  assert (Hg : getBounds props st
               = currentRectangle (Position.mk 10 (-5)) origin
                   (Position.mk width height)).
  { rewrite getBounds_currentRectangle, Ho', Hc', Hc, Hx, Hy. reflexivity. }
  exists st. split; [exact Hrun|]. split; [exact Hd'|]. split; [exact Hg|].
  split; [exact Ho'|].
  split; [unfold Animated.getValue; rewrite Hv, Hb; reflexivity|].
  split; [exact Hb|]. split; [exact Hv|]. split; [exact Ha|].
  split.
  { intros Hdr. rewrite Hdr in Hlog. rewrite Hsb in Hlog.
    assert (Ht : translate (mkRectangle 0 0 width height)
                   (Position.mk 10 (-5))
                 = currentRectangle (Position.mk 10 (-5)) origin
                     (Position.mk width height)).
    { unfold translate, currentRectangle, origin.
      cbn [Position.x Position.y left top right bottom]. f_equal; lia. }
    rewrite Ht in Hlog.
    eexists. rewrite Hlog, app_assoc. reflexivity. }
  split.
  { intros later Hlater.
    destruct (run_passive props later st Ha Hlater)
      as (st2 & H2 & Hp & Ho2 & Hc2 & _).
    exists st2. split; [exact H2|].
    split; [|rewrite Hp; split; assumption].
    rewrite getBounds_currentRectangle, Ho2, Hc2.
    rewrite <- getBounds_currentRectangle. exact Hg. }
  intros e' gs'.
  destruct (grant_commit props e' gs' st Hrev Hl') as (Hgr & _ & Hv' & _).
  destruct Hgr as (_ & Hs & Hbase & _).
  cbv zeta. rewrite Hs, Hg, Hbase, Ho'. auto.
Qed.

Lemma commit_in_place_witness :
  let props := mkProps false None false true false 36 0 0
                 Undefined Undefined Undefined Undefined in
  exists st,
    run props (drag 0%nat (mkGesture 3 0)
                 ([mkGesture 5 5; mkGesture 40 (-20)] ++ [mkGesture 10 (-5)])
                 (mkGesture 10 (-5)))
      (handleOnLayout 36 36 (mounted props)) = Some st
    /\ getBounds props st = mkRectangle 10 (-5) 46 31
    /\ offsetFromStart st = Position.mk 10 (-5)
    /\ Animated.offset (pan st) = Position.mk 10 (-5)
    /\ Animated.value (pan st) = origin.
Proof.
  cbv zeta.
  destruct (commit_in_place
    (mkProps false None false true false 36 0 0
       Undefined Undefined Undefined Undefined)
    36 36 0%nat (mkGesture 3 0) [mkGesture 5 5; mkGesture 40 (-20)]
    (mkGesture 10 (-5)) (mkGesture 10 (-5))
    eq_refl eq_refl eq_refl eq_refl eq_refl)
    as (st & Hrun & _ & Hb & Ho & _ & Hbase & Hv & _).
  exists st. auto 10.
Defined.
